(** * BookLogger: the metadata engine of [app/metadata.py]

    A shallow embedding of the record-linkage and ranking code
    ([normalize_text], [is_isbn], the two scorers, the two providers and
    [search_aggregated]) together with the properties its specification
    states about it.

    Python values are embedded as follows.
    - A [str] is the list of its Unicode code points ([pystr]).
    - A [dict] built by a provider is a record with one field per key.
    - A JSON document of a catalog is a record whose fields are optional
      exactly where the code reads them with [.get] or tests them with [in];
      a key read with [d[k]] is optional too, and its absence raises.
    - An exception is a value of [exn]; code that may raise returns a
      [result]. *)

From Stdlib Require Import List NArith ZArith Bool Lia String Ascii.
From Stdlib Require Import Sorted Permutation DecimalString.
Import ListNotations.

Set Implicit Arguments.

(** ** Python strings *)

Module PyStr.

Definition pystr := list N.

(** A literal written with ASCII characters. *)
Definition lit (s : string) : pystr :=
  List.map N_of_ascii (list_ascii_of_string s).

Definition eqb (a b : pystr) : bool :=
  if list_eq_dec N.eq_dec a b then true else false.

(** [s.startswith(p)] *)
Fixpoint startswith (s p : pystr) : bool :=
  match p, s with
  | [], _ => true
  | _ :: _, [] => false
  | x :: p', y :: s' => N.eqb x y && startswith s' p'
  end.

(** [p in s] *)
Fixpoint contains (p s : pystr) : bool :=
  startswith s p ||
  match s with
  | [] => false
  | _ :: s' => contains p s'
  end.

(** [s.replace(c, "")] for a one-character [c] *)
Definition remove_char (c : N) (s : pystr) : pystr :=
  List.filter (fun x => negb (N.eqb x c)) s.

(** [s.replace(old, new)] for a non-empty [old]: occurrences are taken from
    the left and do not overlap.  [skip] counts the characters of an
    occurrence still to be passed over. *)
Fixpoint replace_from (old new : pystr) (skip : nat) (s : pystr) : pystr :=
  match s with
  | [] => []
  | c :: s' =>
      match skip with
      | S k => replace_from old new k s'
      | O =>
          if startswith s old
          then new ++ replace_from old new (Nat.pred (List.length old)) s'
          else c :: replace_from old new 0 s'
      end
  end.

Definition replace (old new s : pystr) : pystr := replace_from old new 0 s.

(** [sep.join(ws)] *)
Fixpoint join (sep : pystr) (ws : list pystr) : pystr :=
  match ws with
  | [] => []
  | w :: ws' =>
      match ws' with
      | [] => w
      | _ :: _ => w ++ sep ++ join sep ws'
      end
  end.

(** The character tests below are the ones of [str] restricted to code
    points under 128; [is_ascii] tells where they are exact. *)
Definition is_ascii (c : N) : bool := N.ltb c 128.

Definition in_range (lo hi c : N) : bool := N.leb lo c && N.leb c hi.

(** [c.isspace()]: tab, line feed, vertical tab, form feed, carriage return,
    the four separators 28..31 and the space. *)
Definition isspace (c : N) : bool := in_range 9 13 c || in_range 28 32 c.

(** [c.isalnum()] *)
Definition isalnum (c : N) : bool :=
  in_range 48 57 c || in_range 65 90 c || in_range 97 122 c.

(** [c.lower()] *)
Definition lower (c : N) : N := if in_range 65 90 c then (c + 32)%N else c.

(** [s.split()]: the maximal runs of characters that are not whitespace. *)
Fixpoint split (s : pystr) : list pystr :=
  match s with
  | [] => []
  | c :: s' =>
      if isspace c then split s'
      else
        match s' with
        | [] => [[c]]
        | d :: _ =>
            if isspace d then [c] :: split s'
            else
              match split s' with
              | w :: ws => (c :: w) :: ws
              | [] => [[c]]
              end
        end
  end.

(** [str(n)] for an [int] *)
Definition of_Z (n : Z) : pystr := lit (NilZero.string_of_int (Z.to_int n)).

(** Truth value of a string: non-empty. *)
Definition truthy (s : pystr) : bool :=
  match s with [] => false | _ :: _ => true end.

End PyStr.

Import PyStr.

(** ** Exceptions *)

Inductive exn : Type :=
  | KeyError
  | IndexError
  | JSONDecodeError
  | TransportError.

Inductive result (A : Type) : Type :=
  | Ok (a : A)
  | Raise (e : exn).

Arguments Ok {A} a.
Arguments Raise {A} e.

Definition bind {A B : Type} (m : result A) (k : A -> result B) : result B :=
  match m with
  | Ok a => k a
  | Raise e => Raise e
  end.

Notation "x <- m ;; k" := (bind m (fun x => k))
  (at level 61, m at next level, right associativity).

(** A [for] loop whose body may raise: the state reaches the next iteration
    only when the body returned. *)
Fixpoint for_each {A S : Type} (body : S -> A -> result S) (l : list A) (st : S)
  : result S :=
  match l with
  | [] => Ok st
  | x :: l' => st' <- body st x ;; for_each body l' st'
  end.

(** ** [list.sort(key=..., reverse=True)]

    Python's sort is stable, also under [reverse=True].  It is embedded as a
    stable insertion sort: an element goes in front of the first element
    whose key does not exceed its own. *)

Section Sort.
Variable A : Type.
Variable key : A -> Z.

Fixpoint insert_desc (x : A) (l : list A) : list A :=
  match l with
  | [] => [x]
  | y :: l' =>
      if Z.ltb (key x) (key y) then y :: insert_desc x l' else x :: y :: l'
  end.

Fixpoint sort_desc (l : list A) : list A :=
  match l with
  | [] => []
  | x :: l' => insert_desc x (sort_desc l')
  end.
(** Non-increasing keys from left to right. *)
Definition desc_by (a b : A) : Prop := (key b <= key a)%Z.

End Sort.

(** ** The candidate dictionary *)

(** The keys of the dict literal both providers build.  [rating] is a float
    that neither scorer nor the aggregator reads; it is left out. *)
Record fields : Type := mkFields {
  source : pystr;
  source_id : pystr;
  title : pystr;
  author : pystr;
  year : pystr;
  cover : pystr;
  pages : Z;
  summary : pystr;
  genres : pystr;
  isbn : option pystr;
  olid : option pystr
}.

(** The dict after the score keys have been added. *)
Record book : Type := mkBook {
  info :> fields;
  match_score : Z;
  content_score : Z;
  rank_score : Z;
  score : Z
}.

(** ** Catalog documents *)

Record identifier_entry : Type := mkIdent {
  ident_type : option pystr;
  ident_identifier : option pystr
}.

Record image_links : Type := mkImageLinks {
  thumbnail : option pystr;
  smallThumbnail : option pystr
}.

Record volume_info : Type := mkVolume {
  vol_title : option pystr;
  vol_authors : option (list pystr);
  vol_publishedDate : option pystr;
  vol_imageLinks : option image_links;
  vol_pageCount : option Z;
  vol_description : option pystr;
  vol_categories : option (list pystr);
  vol_industryIdentifiers : option (list identifier_entry)
}.

Record google_item : Type := mkGoogleItem {
  item_id : option pystr;
  item_volumeInfo : option volume_info
}.

Record ol_doc : Type := mkOlDoc {
  doc_cover_i : option Z;
  doc_isbn : option (list pystr);
  doc_author_name : option (list pystr);
  doc_key : option pystr;
  doc_title : option pystr;
  doc_first_publish_year : option Z;
  doc_number_of_pages_median : option Z;
  doc_subject : option (list pystr)
}.

(** The JSON object of a response body, with the two keys the providers
    look for. *)
Record json_doc : Type := mkDoc {
  doc_items : option (list google_item);
  doc_docs : option (list ol_doc)
}.

(** What awaiting [client.get(url)] gives: it raises, or it returns a
    response whose [json()] is [None] when the body does not parse. *)
Inductive http_outcome : Type :=
  | Failed (e : exn)
  | Responded (status_code : Z) (json : option json_doc).

Definition get {A : Type} (o : option A) (default : A) : A :=
  match o with
  | Some a => a
  | None => default
  end.

(** [{}] for [item.get("volumeInfo", {})] and [vol.get("imageLinks", {})] *)
Definition empty_volume : volume_info :=
  mkVolume None None None None None None None None.

Definition empty_image_links : image_links := mkImageLinks None None.

(** [str(x)] where [x] is a string or [None] *)
Definition str_of (o : option pystr) : pystr :=
  match o with
  | Some s => s
  | None => lit "None"
  end.

Definition truthy_opt (o : option pystr) : bool :=
  match o with
  | Some s => truthy s
  | None => false
  end.

Definition len (s : pystr) : Z := Z.of_nat (List.length s).

(** [s.replace("-", "").replace(" ", "")] *)
Definition strip_isbn (s : pystr) : pystr := remove_char 32 (remove_char 45 s).

Definition MATCH_THRESHOLD : Z := 40.

(** A fragment of the compatibility decomposition of [unicodedata]: the
    accented Latin letters below decompose into a base letter and a combining
    mark, every other code point is left as it is. *)
Definition decompose (c : N) : pystr :=
  match c with
  | 224%N => [97; 768]%N
  | 225%N => [97; 769]%N
  | 232%N => [101; 768]%N
  | 233%N => [101; 769]%N
  | 241%N => [110; 771]%N
  | 252%N => [117; 776]%N
  | _ => [c]
  end.

Definition nfkd_fragment (s : pystr) : pystr := List.flat_map decompose s.

(** ** The engine *)

Section Engine.

(** [unicodedata.normalize('NFKD', s)] and, for code points from 128 on,
    [c.isdigit()]: the tables of the Unicode database are parameters. *)
Variable nfkd : pystr -> pystr.
Variable unicode_isdigit : N -> bool.

Definition isdigit (c : N) : bool :=
  if is_ascii c then in_range 48 57 c else unicode_isdigit c.

(** [s.isdigit()]: at least one character, and all of them digits. *)
Definition str_isdigit (s : pystr) : bool := truthy s && List.forallb isdigit s.

Definition is_isbn (query : pystr) : bool :=
  if negb (truthy query) then false
  else
    let clean := remove_char 32 (remove_char 45 query) in
    str_isdigit clean && (Z.eqb (len clean) 10 || Z.eqb (len clean) 13).

Definition normalize_text (text : option pystr) : pystr :=
  match text with
  | None => []
  | Some [] => []
  | Some ((_ :: _) as s) =>
      let clean_ascii := List.filter is_ascii (nfkd s) in
      let cleaned :=
        List.filter (fun c => isalnum c || isspace c)
                    (List.map lower clean_ascii) in
      join (lit " ") (split cleaned)
  end.

(** The guard of block 1 of [calculate_match_score]. *)
Definition oracle_hit (b : fields) (match_isbn : option pystr) : bool :=
  match match_isbn with
  | None => false
  | Some m =>
      truthy m &&
      (let clean_target := strip_isbn m in
       let book_isbn := strip_isbn (str_of (isbn b)) in
       truthy clean_target && eqb clean_target book_isbn)
  end.

(** The guard of block 2. *)
Definition isbn_query_hit (b : fields) (query : pystr) : bool :=
  is_isbn query &&
  (let clean_q := strip_isbn query in
   let book_isbn := strip_isbn (str_of (isbn b)) in
   eqb clean_q book_isbn).

Definition calculate_match_score
    (b : fields) (query : pystr) (match_isbn : option pystr) : Z :=
  let score := 0%Z in
  let q_norm := normalize_text (Some query) in
  let t_norm := normalize_text (Some (title b)) in
  let a_norm := normalize_text (Some (author b)) in
  if oracle_hit b match_isbn then 100%Z
  else if isbn_query_hit b query then 100%Z
  else
    let score :=
      if eqb t_norm q_norm then (score + 60)%Z
      else if startswith t_norm (q_norm ++ lit " ") then (score + 55)%Z
      else if startswith q_norm (t_norm ++ lit " ") then (score + 55)%Z
      else if startswith t_norm q_norm || startswith q_norm t_norm
           then (score + 40)%Z
      else if contains q_norm t_norm then (score + 20)%Z
      else score in
    let score :=
      if truthy a_norm && contains a_norm q_norm then (score + 30)%Z
      else if truthy a_norm && contains q_norm a_norm then (score + 30)%Z
      else score in
    Z.min score 100.

Definition calculate_content_score (b : fields) : Z :=
  let score := 0%Z in
  let score :=
    if truthy (cover b) && negb (contains (lit "placeholder") (cover b))
    then (score + 30)%Z else score in
  let score :=
    if truthy (summary b) && Z.ltb 50 (len (summary b)) then (score + 30)%Z
    else if negb (truthy (summary b)) then (score - 10)%Z
    else score in
  let clean_title := normalize_text (Some (title b)) in
  let clean_author := normalize_text (Some (author b)) in
  let score :=
    if Z.ltb 3 (len clean_author) &&
       (contains clean_author clean_title || contains clean_title clean_author)
    then (score - 40)%Z
    else if negb (eqb (author b) (lit "Unknown")) then (score + 10)%Z
    else score in
  let score := if truthy (year b) then (score + 10)%Z else score in
  let score :=
    if Z.eqb (pages b) 0 then (score - 50)%Z
    else if Z.ltb (pages b) 50 then (score - 15)%Z
    else (score + 20)%Z in
  let score := if truthy_opt (isbn b) then (score + 5)%Z else score in
  Z.max 0 (Z.min score 100).

(** The block "CALCULATE SCORES" and "UI OUTPUTS", the same in both
    providers. *)
Definition with_scores
    (b : fields) (query : pystr) (match_isbn : option pystr) : book :=
  let raw_match := calculate_match_score b query match_isbn in
  let raw_content := calculate_content_score b in
  let final_score := (raw_match + raw_content)%Z in
  mkBook b raw_match raw_content final_score final_score.

(** A candidate as a provider leaves it: its dict literal followed by the
    score keys. *)
Definition scored (query : pystr) (match_isbn : option pystr) (b : book)
  : Prop :=
  b = with_scores b query match_isbn.

(** *** [search_google] *)

(** The loop over [industryIdentifiers]; [isbn] is the variable it
    assigns. *)
Fixpoint pick_isbn (idents : list identifier_entry) (isbn : option pystr)
  : result (option pystr) :=
  match idents with
  | [] => Ok isbn
  | ident :: rest =>
      match ident_type ident with
      | None => Raise KeyError
      | Some ty =>
          if eqb ty (lit "ISBN_13") then
            match ident_identifier ident with
            | None => Raise KeyError
            | Some v => pick_isbn rest (Some v)
            end
          else pick_isbn rest isbn
      end
  end.

Definition google_cover (vol : volume_info) : pystr :=
  let image_links := get (vol_imageLinks vol) empty_image_links in
  let raw_cover :=
    match thumbnail image_links with
    | Some ((_ :: _) as t) => t
    | _ => get (smallThumbnail image_links) []
    end in
  let cover :=
    replace (lit "zoom=1") (lit "zoom=0")
      (replace (lit "&edge=curl") []
         (replace (lit "http://") (lit "https://") raw_cover)) in
  if negb (truthy cover) then lit "/static/placeholder.png" else cover.

Definition google_book
    (id : pystr) (item : google_item) (query : pystr)
    (match_isbn : option pystr) : result book :=
  let vol := get (item_volumeInfo item) empty_volume in
  let cover := google_cover vol in
  isbn <- pick_isbn (get (vol_industryIdentifiers vol) []) None ;;
  Ok (with_scores
        (mkFields (lit "Google") id
           (get (vol_title vol) (lit "Unknown"))
           (join (lit ", ") (get (vol_authors vol) [lit "Unknown"]))
           (List.firstn 4 (get (vol_publishedDate vol) []))
           cover
           (get (vol_pageCount vol) 0%Z)
           (get (vol_description vol) [])
           (join (lit ", ") (get (vol_categories vol) []))
           isbn
           None)
        query match_isbn).

(** The loop state of [search_google]: [seen_ids] and [results]. *)
Definition google_state : Type := (list pystr * list book)%type.

Definition google_item_step
    (query : pystr) (match_isbn : option pystr)
    (st : google_state) (item : google_item) : result google_state :=
  match item_id item with
  | None => Raise KeyError
  | Some id =>
      if List.existsb (eqb id) (fst st) then Ok st
      else
        b <- google_book id item query match_isbn ;;
        Ok (id :: fst st, snd st ++ [b])
  end.

Definition google_response_step
    (query : pystr) (match_isbn : option pystr)
    (st : google_state) (resp : http_outcome) : result google_state :=
  match resp with
  | Failed _ => Ok st
  | Responded status_code json =>
      if negb (Z.eqb status_code 200) then Ok st
      else
        match json with
        | None => Raise JSONDecodeError
        | Some data =>
            match doc_items data with
            | None => Ok st
            | Some items =>
                for_each (google_item_step query match_isbn) items st
            end
        end
  end.

Definition google_strategies (query : pystr) : list pystr :=
  if is_isbn query then [lit "isbn:" ++ strip_isbn query]
  else [query; lit "intitle:" ++ query].

Definition google_url (s : pystr) : pystr :=
  lit "https://www.googleapis.com/books/v1/volumes?q=" ++ s
  ++ lit "&maxResults=20".

(** [client] answers a GET of a URL.  The tasks are gathered with
    [return_exceptions=True], so a failed GET is one of the responses. *)
Definition search_google
    (client : pystr -> http_outcome) (query : pystr)
    (match_isbn : option pystr) : result (list book) :=
  let responses :=
    List.map (fun s => client (google_url s)) (google_strategies query) in
  st <- for_each (google_response_step query match_isbn) responses ([], []) ;;
  Ok (snd st).

(** *** [search_open_library] *)

Definition placeholder : pystr := lit "/static/placeholder.png".

Definition ol_book
    (item : ol_doc) (query : pystr) (match_isbn : option pystr)
  : result book :=
  let cover_id := doc_cover_i item in
  let cover :=
    match cover_id with
    | Some n =>
        if Z.eqb n 0 then placeholder
        else lit "https://covers.openlibrary.org/b/id/" ++ of_Z n
             ++ lit "-M.jpg"
    | None => placeholder
    end in
  isbn <- match doc_isbn item with
          | None => Ok None
          | Some [] => Raise IndexError
          | Some (x :: _) => Ok (Some x)
          end ;;
  let author :=
    join (lit ", ")
         (List.firstn 2 (get (doc_author_name item) [lit "Unknown"])) in
  Ok (with_scores
        (mkFields (lit "OpenLibrary")
           (replace (lit "/works/") [] (get (doc_key item) []))
           (get (doc_title item) (lit "Unknown"))
           author
           (match doc_first_publish_year item with
            | Some y => of_Z y
            | None => []
            end)
           cover
           (get (doc_number_of_pages_median item) 0%Z)
           []
           (join (lit ", ") (List.firstn 3 (get (doc_subject item) [])))
           isbn
           (Some (replace (lit "/works/") [] (get (doc_key item) []))))
        query match_isbn).

(** The loop over [data["docs"]] inside the [try]: it gives the list
    [results] as the loop left it and the exception that stopped it, if
    any. *)
Fixpoint ol_docs_loop
    (query : pystr) (match_isbn : option pystr)
    (items : list ol_doc) (results : list book) : list book * option exn :=
  match items with
  | [] => (results, None)
  | item :: rest =>
      match ol_book item query match_isbn with
      | Raise e => (results, Some e)
      | Ok b => ol_docs_loop query match_isbn rest (results ++ [b])
      end
  end.

Definition ol_url (query : pystr) : pystr :=
  lit "https://openlibrary.org/search.json?q=" ++ query ++ lit "&limit=20".

(** Every exception of the [try] block is caught by [except Exception],
    and [results] is returned as it stands. *)
Definition search_open_library
    (client : pystr -> http_outcome) (query : pystr)
    (match_isbn : option pystr) : list book :=
  let results := [] in
  match client (ol_url query) with
  | Failed _ => results
  | Responded status_code json =>
      if negb (Z.eqb status_code 200) then []
      else
        match json with
        | None => results
        | Some data =>
            match doc_docs data with
            | None => results
            | Some items => fst (ol_docs_loop query match_isbn items results)
            end
        end
  end.

(** *** [search_aggregated] *)

(** The two provider tasks are gathered without [return_exceptions], so an
    exception of [search_google] is the outcome of the call. *)
Definition search_aggregated
    (client : pystr -> http_outcome) (query : pystr)
    (match_isbn : option pystr) : result (list book) :=
  let ol_results := search_open_library client query match_isbn in
  g_results <- search_google client query match_isbn ;;
  let combined := g_results ++ ol_results in
  let filtered :=
    List.filter (fun b => Z.leb MATCH_THRESHOLD (match_score b)) combined in
  Ok (sort_desc score filtered).

End Engine.

(** ** The specification's reading of the title and author rules

    The rule table of the specification, evaluated from the top, the first
    applicable rule deciding.  It is compared with the [elif] chain of
    [calculate_match_score] below. *)

Definition spec_title_rules (t q : pystr) : list (bool * Z) :=
  [ (eqb t q, 60%Z);
    (startswith t (q ++ lit " ") || startswith q (t ++ lit " "), 55%Z);
    (startswith t q || startswith q t, 40%Z);
    (contains q t, 20%Z) ].

Fixpoint first_applicable (rules : list (bool * Z)) : Z :=
  match rules with
  | [] => 0%Z
  | (applies, contribution) :: rest =>
      if applies then contribution else first_applicable rest
  end.

Definition spec_title_tier (t q : pystr) : Z :=
  first_applicable (spec_title_rules t q).

Definition spec_author_bonus (a q : pystr) : Z :=
  if truthy a && (contains a q || contains q a) then 30%Z else 0%Z.

(** The entries of an identifier list that carry the 13-digit type. *)
Definition is_isbn13 (e : identifier_entry) : bool :=
  match ident_type e with
  | Some ty => eqb ty (lit "ISBN_13")
  | None => false
  end.

Definition first_isbn13 (idents : list identifier_entry)
  : option identifier_entry :=
  List.find is_isbn13 idents.

Definition last_isbn13 (idents : list identifier_entry)
  : option identifier_entry :=
  List.find is_isbn13 (List.rev idents).

(** ** Concrete catalogs used to exercise the engine *)

Definition no_unicode_digit (c : N) : bool := false.

Definition volume_of
    (ttl : string) (authors : list pystr) (pagecount : Z)
    (idents : list identifier_entry) : volume_info :=
  mkVolume (Some (lit ttl)) (Some authors) (Some (lit "1965-08-01"))
    (Some (mkImageLinks (Some (lit "http://books.example/c?id=1&zoom=1&edge=curl"))
                        None))
    (Some pagecount) (Some (lit "A novel.")) None (Some idents).

Definition isbn13_entry (v : string) : identifier_entry :=
  mkIdent (Some (lit "ISBN_13")) (Some (lit v)).

Definition dune_items : list google_item :=
  [ mkGoogleItem (Some (lit "g1"))
      (Some (volume_of "Dune" [lit "Frank Herbert"] 412
               [isbn13_entry "9780441172719"]));
    mkGoogleItem (Some (lit "g2"))
      (Some (volume_of "Dune Messiah" [lit "Frank Herbert"] 256 []));
    mkGoogleItem (Some (lit "g3"))
      (Some (volume_of "Gardening" [lit "A. Grower"] 120 [])) ].

Definition messiah_doc : ol_doc :=
  mkOlDoc None None (Some [lit "Frank Herbert"])
    (Some (lit "/works/OL2W")) (Some (lit "Dune Messiah")) (Some 1969%Z)
    (Some 256%Z) None.

Definition dune_docs : list ol_doc :=
  [ mkOlDoc (Some 42%Z) (Some [lit "9780441172719"]) (Some [lit "Frank Herbert"])
      (Some (lit "/works/OL1W")) (Some (lit "Dune")) (Some 1965%Z) (Some 412%Z)
      (Some [lit "Fiction"]);
    messiah_doc ].

(** A client whose two catalogs answer every request with the lists above. *)
Definition dune_client (url : pystr) : http_outcome :=
  Responded 200 (Some (mkDoc (Some dune_items) (Some dune_docs))).

(** A client whose general catalog answers with a body that is not JSON and
    whose library catalog answers as [dune_client] does. *)
Definition broken_google_client (url : pystr) : http_outcome :=
  if startswith url (lit "https://www.googleapis.com/")
  then Responded 200 None
  else dune_client url.

(** The text "Café — A Novel" (with U+00E9 and the dash U+2014), and its
    decomposition, where U+00E9 has become "e" and the mark U+0301. *)
Definition cafe_a_novel : pystr :=
  lit "Caf" ++ [233%N] ++ lit " " ++ [8212%N] ++ lit " A Novel".

Definition cafe_a_novel_decomposed : pystr :=
  lit "Cafe" ++ [769%N] ++ lit " " ++ [8212%N] ++ lit " A Novel".

Definition gardening_with_isbn (i : option pystr) : fields :=
  mkFields (lit "Google") (lit "g3") (lit "Gardening") (lit "A. Grower")
    (lit "1999") (lit "/static/placeholder.png") 120 [] [] i None.

Definition messiah_fields : fields :=
  mkFields (lit "Google") (lit "g2") (lit "Dune Messiah") (lit "Frank Herbert")
    (lit "1969") (lit "/static/placeholder.png") 256 [] [] None None.

Definition two_isbn13_item : google_item :=
  mkGoogleItem (Some (lit "g7"))
    (Some (volume_of "Dune" [lit "Frank Herbert"] 412
             [isbn13_entry "9780441172719"; isbn13_entry "9780593099322"])).

Definition dune_full : fields :=
  mkFields (lit "Google") (lit "g1") (lit "Dune") (lit "Frank Herbert")
    (lit "1965") (lit "https://books.example/c?id=1&zoom=0") 412
    (List.repeat 120%N 200) (lit "Fiction") (Some (lit "9780441172719")) None.

(** ** [app/utils.py] *)

(** [format_runtime(mins)] for [mins] an [int] or [None]; [//] and [%] by a
    positive number are the floor division and its remainder. *)
Definition format_runtime (mins : option Z) : pystr :=
  match mins with
  | None => []
  | Some n =>
      if Z.eqb n 0 then []
      else
        let h := (n / 60)%Z in
        let m := (n mod 60)%Z in
        of_Z h ++ lit "h " ++ of_Z m ++ lit "m"
  end.

(** [RELATION_MAP]: for a relation type, the label seen from the source book
    and the label seen from the target book. *)
Definition RELATION_MAP : list (pystr * (pystr * pystr)) :=
  [ (lit "reads_like", (lit "Reads Like", lit "Reads Like"));
    (lit "contrast", (lit "Contrast", lit "Contrast"));
    (lit "complementary", (lit "Complementary", lit "Complementary"));
    (lit "same_universe", (lit "Same Universe", lit "Same Universe"));
    (lit "shared_trope", (lit "Shared Trope", lit "Shared Trope"));
    (lit "prequel_to", (lit "Prequel To", lit "Sequel"));
    (lit "sequel_to", (lit "Sequel To", lit "Prequel"));
    (lit "prerequisite_for", (lit "Prerequisite For", lit "Requires"));
    (lit "more_detailed_than", (lit "More Detailed Than", lit "Simpler Than"));
    (lit "simpler_than", (lit "Simpler Than", lit "More Detailed Than"));
    (lit "inspired_by", (lit "Inspired By", lit "Inspired This"));
    (lit "better_than", (lit "Better Than", lit "Worse Than"));
    (lit "worse_than", (lit "Worse Than", lit "Better Than")) ].

(** [d.get(k, default)] for a dict with string keys, written as the list of
    its items. *)
Fixpoint dict_get (A : Type) (d : list (pystr * A)) (k : pystr) (default : A)
  : A :=
  match d with
  | [] => default
  | (k', v) :: d' => if eqb k k' then v else dict_get d' k default
  end.

(** ** [app/main.py] *)

(** The row of a relation query, and the dict [prep_relation] makes of it. *)
Record relation_row : Type := mkRelationRow {
  relation_id : Z;
  relation_type : pystr;
  related_title : pystr;
  related_inventory_id : option Z;
  rel_cover_url : option pystr;
  rel_cover_path : option pystr
}.

Record relation_view : Type := mkRelationView {
  view_row : relation_row;
  label : pystr;
  direction_icon : pystr;
  is_incoming : bool
}.

(** [prep_relation(r, is_incoming)] of [book_detail]; the icons are the
    arrows U+2190 and U+2192. *)
Definition prep_relation (r : relation_row) (is_incoming : bool)
  : relation_view :=
  let d :=
    if truthy_opt (rel_cover_path r)
    then mkRelationRow (relation_id r) (relation_type r) (related_title r)
           (related_inventory_id r) (rel_cover_path r) (rel_cover_path r)
    else r in
  let raw_type := relation_type d in
  let labels := dict_get RELATION_MAP raw_type (raw_type, raw_type) in
  if is_incoming
  then mkRelationView d (snd labels) [8592%N] is_incoming
  else mkRelationView d (fst labels) [8594%N] is_incoming.

(** The body of [update_inventory] up to the database write: the list
    [formats] and the flag [is_owned] it stores. *)
Definition inventory_formats
    (physical kindle audible libby_audio libby_physical libby_ebook
       : option pystr) : list pystr :=
  let formats := [] in
  let formats :=
    if truthy_opt physical then formats ++ [lit "Physical"] else formats in
  let formats :=
    if truthy_opt kindle then formats ++ [lit "Kindle"] else formats in
  let formats :=
    if truthy_opt audible then formats ++ [lit "Audible"] else formats in
  let formats :=
    if truthy_opt libby_audio then formats ++ [lit "Libby Audiobook"]
    else formats in
  let formats :=
    if truthy_opt libby_physical then formats ++ [lit "Libby Physical"]
    else formats in
  let formats :=
    if truthy_opt libby_ebook then formats ++ [lit "Libby eBook"]
    else formats in
  formats.

Definition inventory_is_owned (formats : list pystr) : bool :=
  List.existsb
    (fun f => List.existsb (eqb f) [lit "Physical"; lit "Kindle"; lit "Audible"])
    formats.

(** The loop of [get_cover_options] over the results of [search_aggregated]:
    the state is [unique_covers] and [seen]. *)
Definition cover_step (st : list pystr * list pystr) (r : book)
  : list pystr * list pystr :=
  let url := cover r in
  if truthy url && negb (contains (lit "placeholder") url)
     && negb (List.existsb (eqb url) (snd st))
  then (fst st ++ [url], url :: snd st)
  else st.

Definition unique_covers (results : list book) : list pystr :=
  fst (List.fold_left cover_step results ([], [])).

(** ** [import_csv.py] *)

Definition SERVICE_DEFAULTS : list (pystr * (pystr * bool)) :=
  [ (lit "Audible", (lit "Audible", false));
    (lit "Kindle", (lit "Kindle", false));
    (lit "Physical", (lit "Physical", false));
    (lit "Paperback", (lit "Physical", false));
    (lit "Hardcover", (lit "Physical", false));
    (lit "Kindle Unlimited", (lit "Kindle", true));
    (lit "Libby", (lit "Libby Audiobook", true));
    (lit "Library", (lit "Physical", true));
    (lit "Spotify", (lit "Audible", true)) ].

(** The block of [run_import] that decides, from the stripped "Service"
    cell and the lower-cased "Own?" cell, the triple [format_consumed],
    [is_owned], [is_borrowed]. *)
Definition ownership (service_raw own_raw : pystr) : pystr * bool * bool :=
  let defaults :=
    dict_get SERVICE_DEFAULTS service_raw (lit "Physical", false) in
  let format_consumed := fst defaults in
  if contains (lit "yes") own_raw then (format_consumed, true, false)
  else if contains (lit "no") own_raw then (format_consumed, false, true)
  else (format_consumed, negb (snd defaults), snd defaults).

(** The choice of [best_match] in [run_import]: the first candidate, if the
    list is not empty. *)
Definition best_match (candidates : list book) : option book :=
  match candidates with
  | [] => None
  | b :: _ => Some b
  end.

(** ** Concrete inputs for the functions above *)

Definition no_catalog_client (url : pystr) : http_outcome :=
  if startswith url (lit "https://www.googleapis.com/")
  then Failed TransportError
  else Responded 503 None.

Definition empty_isbn_doc : ol_doc :=
  mkOlDoc None (Some []) (Some [lit "Nobody"]) (Some (lit "/works/OL9W"))
    (Some (lit "Dune Encyclopedia")) None None None.

Definition partial_docs_client (url : pystr) : http_outcome :=
  Responded 200
    (Some (mkDoc None (Some [messiah_doc; empty_isbn_doc; messiah_doc]))).

Definition no_id_client (url : pystr) : http_outcome :=
  Responded 200
    (Some (mkDoc (Some [mkGoogleItem None None]) (Some dune_docs))).

Definition zero_pages_fields : fields :=
  mkFields (lit "Google") (lit "g5") (lit "Dune") (lit "Frank Herbert")
    (lit "1965") (lit "https://books.example/c?id=5") 0
    (List.repeat 120%N 200) [] (Some (lit "9780441172719")) None.

Definition self_titled_fields : fields :=
  mkFields (lit "Google") (lit "g6") (lit "Frank Herbert")
    (lit "Frank Herbert") (lit "1965") (lit "https://books.example/c?id=6") 412
    (List.repeat 120%N 200) [] (Some (lit "9780441172719")) None.

Definition http_cover_volume : volume_info :=
  mkVolume None None None
    (Some (mkImageLinks (Some (lit "http://books.example/c?id=1&edge=curl"))
                        None))
    None None None None.

(** The state of the loop of [search_google]: [seen_ids] holds the record
    ids of [results], last first, and no id twice. *)
Definition google_state_ok (st : google_state) : Prop :=
  NoDup (fst st) /\
  List.map (fun b : book => source_id b) (snd st) = List.rev (fst st) /\
  Forall (fun b : book => source b = lit "Google" /\ olid b = None) (snd st).

(** The relation types of [RELATION_MAP] whose two labels differ. *)
Definition directional_types : list pystr :=
  [ lit "prequel_to"; lit "sequel_to"; lit "prerequisite_for";
    lit "more_detailed_than"; lit "simpler_than"; lit "inspired_by";
    lit "better_than"; lit "worse_than" ].

(** A cover [get_cover_options] offers: not empty and not the placeholder. *)
Definition offered (url : pystr) : Prop :=
  truthy url = true /\ contains (lit "placeholder") url = false.

(** ** Shapes of normalized text *)

Definition is_word (w : pystr) : Prop :=
  w <> [] /\ Forall (fun c => isspace c = false) w.

(** What a character of a normalized text is: a digit, a lower-case letter
    or whitespace. *)
Definition norm_char (c : N) : Prop :=
  (isalnum c || isspace c) && negb (in_range 65 90 c) = true.

(** ** Strings: facts about [split] and [join] *)

Example split_two_words :
  split (lit "  ab   c ") = [lit "ab"; lit "c"].
Proof. reflexivity. Qed.

Example replace_scheme :
  replace (lit "http://") (lit "https://") (lit "http://x/http://y")
  = lit "https://x/https://y".
Proof. reflexivity. Qed.

Example of_Z_1965 : of_Z 1965 = lit "1965".
Proof. reflexivity. Qed.


Lemma split_cons_space (c : N) (s : pystr) :
  isspace c = true -> split (c :: s) = split s.
Proof. intros H; simpl; rewrite H; reflexivity. Qed.

Lemma split_words (s : pystr) : Forall is_word (split s).
Proof.
  induction s as [|c s IH]; simpl; [constructor|].
  destruct (isspace c) eqn:Hc; [exact IH|].
  destruct s as [|d s'].
  - repeat constructor; [discriminate | exact Hc].
  - destruct (isspace d) eqn:Hd.
    + constructor; [|exact IH].
      split; [discriminate | repeat constructor; exact Hc].
    + destruct (split (d :: s')) as [|w ws] eqn:Hs.
      * repeat constructor; [discriminate | exact Hc].
      * inversion IH as [|? ? [Hw1 Hw2] Hws]; subst.
        constructor; [|exact Hws].
        split; [discriminate | constructor; assumption].
Qed.

Lemma split_word (w : pystr) : is_word w -> split w = [w].
Proof.
  intros [Hne Hall]; induction w as [|c w IH]; [congruence|].
  inversion Hall as [|? ? Hc Hw]; subst.
  simpl; rewrite Hc.
  destruct w as [|d w']; [reflexivity|].
  inversion Hw as [|? ? Hd _]; subst; rewrite Hd.
  rewrite IH; [reflexivity | discriminate | exact Hw].
Qed.

Lemma split_word_space (w rest : pystr) :
  is_word w -> split (w ++ 32%N :: rest) = w :: split rest.
Proof.
  intros [Hne Hall]; induction w as [|c w IH]; [congruence|].
  inversion Hall as [|? ? Hc Hw]; subst.
  cbn [app]. destruct w as [|d w'].
  - cbn [app]. simpl. rewrite Hc. reflexivity.
  - inversion Hw as [|? ? Hd _]; subst.
    assert (E : split ((d :: w') ++ 32%N :: rest) = (d :: w') :: split rest)
      by (apply IH; [discriminate | exact Hw]).
    cbn [app] in E |- *.
    change (split (c :: d :: w' ++ 32%N :: rest))
      with (if isspace c then split (d :: w' ++ 32%N :: rest)
            else if isspace d then [c] :: split (d :: w' ++ 32%N :: rest)
                 else match split (d :: w' ++ 32%N :: rest) with
                      | w :: ws => (c :: w) :: ws
                      | [] => [[c]]
                      end).
    rewrite Hc, Hd, E. reflexivity.
Qed.

Lemma split_join (ws : list pystr) :
  Forall is_word ws -> split (join (lit " ") ws) = ws.
Proof.
  induction ws as [|w ws IH]; intros H; [reflexivity|].
  inversion H as [|? ? Hw Hws]; subst.
  destruct ws as [|w2 ws'].
  - simpl. apply split_word; exact Hw.
  - change (join (lit " ") (w :: w2 :: ws'))
      with (w ++ 32%N :: join (lit " ") (w2 :: ws')).
    rewrite split_word_space by exact Hw.
    rewrite IH by exact Hws. reflexivity.
Qed.

Lemma join_chars (P : N -> Prop) (ws : list pystr) :
  P 32%N -> Forall (Forall P) ws -> Forall P (join (lit " ") ws).
Proof.
  intros Hsp; induction ws as [|w ws IH]; intros H; [constructor|].
  inversion H as [|? ? Hw Hws]; subst.
  destruct ws as [|w2 ws']; [exact Hw|].
  change (join (lit " ") (w :: w2 :: ws'))
    with (w ++ 32%N :: join (lit " ") (w2 :: ws')).
  apply Forall_app; split; [exact Hw|].
  constructor; [exact Hsp | apply IH; exact Hws].
Qed.

Lemma split_chars (P : N -> Prop) (s : pystr) :
  Forall P s -> Forall (Forall P) (split s).
Proof.
  induction s as [|c s IH]; intros H; simpl; [constructor|].
  inversion H as [|? ? Hc Hs]; subst.
  destruct (isspace c); [apply IH; exact Hs|].
  destruct s as [|d s']; [repeat constructor; exact Hc|].
  destruct (isspace d).
  - constructor; [repeat constructor; exact Hc | apply IH; exact Hs].
  - specialize (IH Hs).
    destruct (split (d :: s')) as [|w ws]; [repeat constructor; exact Hc|].
    inversion IH; subst. constructor; [constructor|]; assumption.
Qed.

Lemma join_words_head (ws : list pystr) :
  Forall is_word ws -> startswith (join (lit " ") ws) (lit " ") = false.
Proof.
  intros H; destruct ws as [|w ws]; [reflexivity|].
  inversion H as [|? ? [Hne Hall] _]; subst.
  destruct w as [|c w]; [congruence|].
  inversion Hall as [|? ? Hc _]; subst.
  assert (Hh : forall r, startswith (c :: r) (lit " ") = false).
  { intros r; change (startswith (c :: r) (lit " "))
      with (N.eqb 32 c && startswith r []).
    destruct (N.eqb_spec 32 c) as [<-|]; [discriminate Hc|reflexivity]. }
  destruct ws; simpl join; [apply Hh | apply (Hh _)].
Qed.

(** ** Characters *)

Ltac char_cases :=
  unfold norm_char, isalnum, isspace, is_ascii, lower, in_range in *;
  repeat (match goal with
          | |- context [N.leb ?a ?b] => destruct (N.leb_spec a b)
          | H : context [N.leb ?a ?b] |- _ => destruct (N.leb_spec a b)
          | |- context [N.ltb ?a ?b] => destruct (N.ltb_spec a b)
          | H : context [N.ltb ?a ?b] |- _ => destruct (N.ltb_spec a b)
          end; cbn [andb orb negb] in *; try lia; try discriminate);
  try reflexivity; try lia.

Lemma norm_char_ascii (c : N) : norm_char c -> is_ascii c = true.
Proof. intros H. char_cases. Qed.

Lemma norm_char_lower (c : N) : norm_char c -> lower c = c.
Proof. intros H. char_cases. Qed.

Lemma norm_char_kept (c : N) : norm_char c -> isalnum c || isspace c = true.
Proof.
  unfold norm_char; intros H.
  apply andb_true_iff in H; tauto.
Qed.

Lemma norm_char_space : norm_char 32%N.
Proof. reflexivity. Qed.

Lemma lower_not_upper (c : N) : in_range 65 90 (lower c) = false.
Proof. char_cases. Qed.

Lemma filter_id (A : Type) (f : A -> bool) (l : list A) :
  Forall (fun x => f x = true) l -> List.filter f l = l.
Proof.
  induction 1 as [|x l Hx _ IH]; simpl; [reflexivity|].
  rewrite Hx, IH; reflexivity.
Qed.

Lemma map_id_on (A : Type) (f : A -> A) (l : list A) :
  Forall (fun x => f x = x) l -> List.map f l = l.
Proof.
  induction 1 as [|x l Hx _ IH]; simpl; [reflexivity|].
  rewrite Hx, IH; reflexivity.
Qed.

Lemma cleaned_chars (s : pystr) :
  Forall norm_char
    (List.filter (fun c => isalnum c || isspace c) (List.map lower s)).
Proof.
  apply Forall_forall; intros c Hc.
  apply filter_In in Hc; destruct Hc as [Hin Hk].
  apply in_map_iff in Hin; destruct Hin as [c' [<- _]].
  unfold norm_char; rewrite Hk, lower_not_upper; reflexivity.
Qed.

(** ** [normalize_text] *)

Section NormalizerFacts.

Variable nfkd : pystr -> pystr.

(** The shape of every normalized text: words of normalized characters
    joined by one space. *)
Lemma normalize_text_shape (text : option pystr) :
  exists ws,
    normalize_text nfkd text = join (lit " ") ws /\
    Forall is_word ws /\ Forall (Forall norm_char) ws.
Proof.
  destruct text as [[|c s]|]; try (exists []; repeat split; constructor).
  unfold normalize_text.
  eexists; split; [reflexivity|]; split.
  - apply split_words.
  - apply split_chars, cleaned_chars.
Qed.

Lemma normalize_text_chars (text : option pystr) :
  Forall norm_char (normalize_text nfkd text).
Proof.
  destruct (normalize_text_shape text) as [ws [-> [_ H]]].
  apply join_chars; [exact norm_char_space | exact H].
Qed.

Lemma normalize_text_no_leading_space (text : option pystr) :
  startswith (normalize_text nfkd text) (lit " ") = false.
Proof.
  destruct (normalize_text_shape text) as [ws [-> [H _]]].
  apply join_words_head; exact H.
Qed.

(** The decomposition leaves a text of ASCII characters as it is. *)
Hypothesis nfkd_ascii :
  forall s, Forall (fun c => is_ascii c = true) s -> nfkd s = s.

Lemma normalize_text_ascii (s : pystr) :
  Forall (fun c => is_ascii c = true) s ->
  normalize_text nfkd (Some s) = normalize_text (fun x => x) (Some s).
Proof.
  intros H; destruct s; [reflexivity|].
  unfold normalize_text; rewrite (nfkd_ascii H); reflexivity.
Qed.

Lemma normalize_text_fixes_normal (ws : list pystr) :
  Forall is_word ws -> Forall (Forall norm_char) ws ->
  normalize_text nfkd (Some (join (lit " ") ws)) = join (lit " ") ws.
Proof.
  intros Hw Hc.
  assert (Hy : Forall norm_char (join (lit " ") ws))
    by (apply join_chars; [exact norm_char_space | exact Hc]).
  destruct (join (lit " ") ws) as [|c y] eqn:E; [reflexivity|].
  unfold normalize_text.
  assert (Ha : Forall (fun x => is_ascii x = true) (c :: y))
    by (eapply Forall_impl; [|exact Hy]; exact norm_char_ascii).
  assert (Hl : Forall (fun x => lower x = x) (c :: y))
    by (eapply Forall_impl; [|exact Hy]; exact norm_char_lower).
  assert (Hk : Forall (fun x => isalnum x || isspace x = true) (c :: y))
    by (eapply Forall_impl; [|exact Hy]; exact norm_char_kept).
  rewrite (nfkd_ascii Ha), (@filter_id _ is_ascii _ Ha), (@map_id_on _ lower _ Hl).
  rewrite (@filter_id _ (fun x => isalnum x || isspace x) _ Hk).
  rewrite <- E, split_join by exact Hw.
  reflexivity.
Qed.

Lemma normalize_text_idempotent (text : option pystr) :
  normalize_text nfkd (Some (normalize_text nfkd text))
  = normalize_text nfkd text.
Proof.
  destruct (normalize_text_shape text) as [ws [-> [Hw Hc]]].
  apply normalize_text_fixes_normal; assumption.
Qed.

End NormalizerFacts.

Lemma decompose_ascii (c : N) : is_ascii c = true -> decompose c = [c].
Proof.
  intros H; destruct c as [|p]; [reflexivity|].
  do 8 (destruct p as [p|p|]; try reflexivity); discriminate H.
Qed.

Lemma nfkd_fragment_ascii (s : pystr) :
  Forall (fun c => is_ascii c = true) s -> nfkd_fragment s = s.
Proof.
  unfold nfkd_fragment.
  induction 1 as [|c s Hc _ IH]; simpl; [reflexivity|].
  rewrite (decompose_ascii c Hc), IH; reflexivity.
Qed.

(** C9: [normalize_text] gives the empty string on [None] and on the empty
    string, normalizing a normalized text changes nothing, and
    "Café — A Novel" normalizes to "cafe a novel".  The decomposition table
    enters through what it does on ASCII text and on this one text. *)
Theorem normalize_text_total_and_idempotent :
  forall nfkd : pystr -> pystr,
    (forall s, Forall (fun c => is_ascii c = true) s -> nfkd s = s) ->
    nfkd cafe_a_novel = cafe_a_novel_decomposed ->
    normalize_text nfkd None = [] /\
    normalize_text nfkd (Some []) = [] /\
    (forall x : option pystr,
        normalize_text nfkd (Some (normalize_text nfkd x))
        = normalize_text nfkd x) /\
    normalize_text nfkd (Some cafe_a_novel) = lit "cafe a novel".
Proof.
  intros nfkd Hascii Hcafe.
  split; [reflexivity|]. split; [reflexivity|]. split.
  - intros x. apply normalize_text_idempotent; exact Hascii.
  - change (normalize_text nfkd (Some cafe_a_novel))
      with (join (lit " ")
              (split (List.filter (fun c => isalnum c || isspace c)
                        (List.map lower
                           (List.filter is_ascii (nfkd cafe_a_novel)))))).
    rewrite Hcafe. reflexivity.
Qed.

Lemma normalize_text_total_and_idempotent_witness :
  normalize_text nfkd_fragment (Some cafe_a_novel) = lit "cafe a novel" /\
  normalize_text nfkd_fragment
    (Some (normalize_text nfkd_fragment (Some (lit "  The  HOBBIT!"))))
  = lit "the hobbit".
Proof.
  destruct (normalize_text_total_and_idempotent
              nfkd_fragment nfkd_fragment_ascii eq_refl)
    as [_ [_ [Hidem Hcafe]]].
  split; [exact Hcafe|].
  rewrite Hidem. reflexivity.
Defined.

(** ** The sort *)

Section SortFacts.

Variable A : Type.
Variable key : A -> Z.

Lemma insert_desc_perm (x : A) (l : list A) :
  Permutation (x :: l) (insert_desc key x l).
Proof.
  induction l as [|y l IH]; simpl; [apply Permutation_refl|].
  destruct (Z.ltb (key x) (key y)); [|apply Permutation_refl].
  eapply perm_trans; [apply perm_swap|].
  apply perm_skip; exact IH.
Qed.

Lemma sort_desc_perm (l : list A) : Permutation l (sort_desc key l).
Proof.
  induction l as [|x l IH]; simpl; [constructor|].
  eapply perm_trans; [apply perm_skip; exact IH | apply insert_desc_perm].
Qed.

Lemma insert_desc_hd (x y : A) (l : list A) :
  (key x <= key y)%Z -> HdRel (desc_by key) y l -> HdRel (desc_by key) y (insert_desc key x l).
Proof.
  intros Hxy H; destruct l as [|z l]; simpl.
  - constructor; exact Hxy.
  - destruct (Z.ltb (key x) (key z)); constructor.
    + inversion H; assumption.
    + exact Hxy.
Qed.

Lemma insert_desc_sorted (x : A) (l : list A) :
  Sorted (desc_by key) l -> Sorted (desc_by key) (insert_desc key x l).
Proof.
  induction 1 as [|y l Hs IH Hhd]; simpl.
  - repeat constructor.
  - destruct (Z.ltb_spec (key x) (key y)) as [Hlt|Hge].
    + constructor; [exact IH|].
      apply insert_desc_hd; [lia | exact Hhd].
    + constructor; [constructor; assumption|].
      constructor; exact Hge.
Qed.

Lemma sort_desc_sorted (l : list A) : Sorted (desc_by key) (sort_desc key l).
Proof.
  induction l as [|x l IH]; simpl; [constructor|].
  apply insert_desc_sorted; exact IH.
Qed.

(** Stability: the elements of any one key keep their order. *)
Lemma insert_desc_same_key (k : Z) (x : A) (l : list A) :
  List.filter (fun a => Z.eqb (key a) k) (insert_desc key x l)
  = List.filter (fun a => Z.eqb (key a) k) (x :: l).
Proof.
  induction l as [|y l IH]; [reflexivity|].
  simpl insert_desc.
  destruct (Z.ltb_spec (key x) (key y)) as [Hlt|Hge]; [|reflexivity].
  simpl in IH |- *. rewrite IH.
  destruct (Z.eqb_spec (key x) k) as [Hx|Hx];
    destruct (Z.eqb_spec (key y) k) as [Hy|Hy]; try reflexivity.
  lia.
Qed.

Lemma sort_desc_stable (k : Z) (l : list A) :
  List.filter (fun a => Z.eqb (key a) k) (sort_desc key l)
  = List.filter (fun a => Z.eqb (key a) k) l.
Proof.
  induction l as [|x l IH]; [reflexivity|].
  simpl sort_desc. rewrite insert_desc_same_key.
  simpl. rewrite IH. reflexivity.
Qed.

End SortFacts.

Lemma Sorted_ext_in (A : Type) (R R' : A -> A -> Prop) (l : list A) :
  (forall a b, In a l -> In b l -> R a b -> R' a b) ->
  Sorted R l -> Sorted R' l.
Proof.
  intros Himp H; induction H as [|a l Hs IH Hhd]; [constructor|].
  constructor.
  - apply IH; intros; apply Himp; simpl; auto.
  - destruct Hhd; constructor; apply Himp; simpl; auto.
Qed.

(** ** Loops *)

Lemma for_each_invariant (A S : Type) (P : S -> Prop)
      (body : S -> A -> result S) :
  (forall st x st', P st -> body st x = Ok st' -> P st') ->
  forall l st st', P st -> for_each body l st = Ok st' -> P st'.
Proof.
  intros Hbody; induction l as [|x l IH]; intros st st' HP H; simpl in H.
  - injection H as <-; exact HP.
  - destruct (body st x) as [st1|e] eqn:E; simpl in H; [|discriminate].
    eapply IH; [eapply Hbody; eassumption | exact H].
Qed.

(** ** Candidates *)

Section ProviderFacts.

Variable nfkd : pystr -> pystr.
Variable unicode_isdigit : N -> bool.
Variable query : pystr.
Variable match_isbn : option pystr.

Lemma with_scores_scored (f : fields) :
  (scored nfkd unicode_isdigit query match_isbn) (with_scores nfkd unicode_isdigit f query match_isbn).
Proof. reflexivity. Qed.

Lemma google_book_scored (id : pystr) (item : google_item) (b : book) :
  google_book nfkd unicode_isdigit id item query match_isbn = Ok b -> (scored nfkd unicode_isdigit query match_isbn) b.
Proof.
  unfold google_book; intros H.
  destruct (pick_isbn _ _); simpl in H; [|discriminate].
  injection H as <-; apply with_scores_scored.
Qed.

Lemma ol_book_scored (item : ol_doc) (b : book) :
  ol_book nfkd unicode_isdigit item query match_isbn = Ok b -> (scored nfkd unicode_isdigit query match_isbn) b.
Proof.
  unfold ol_book; intros H.
  destruct (doc_isbn item) as [[|x l]|]; simpl in H; try discriminate;
    injection H as <-; apply with_scores_scored.
Qed.

Lemma search_google_scored (client : pystr -> http_outcome) (g : list book) :
  search_google nfkd unicode_isdigit client query match_isbn = Ok g ->
  Forall (scored nfkd unicode_isdigit query match_isbn) g.
Proof.
  unfold search_google; intros H.
  destruct (for_each _ _ _) as [st|e] eqn:E; simpl in H; [|discriminate].
  injection H as <-.
  revert E.
  apply (for_each_invariant (fun st : google_state => Forall (scored nfkd unicode_isdigit query match_isbn) (snd st)));
    [|constructor].
  intros st0 resp st1 HP Hstep.
  destruct resp as [e|code json]; simpl in Hstep.
  - injection Hstep as <-; exact HP.
  - destruct (negb _); [injection Hstep as <-; exact HP|].
    destruct json as [data|]; [|discriminate].
    destruct (doc_items data) as [items|]; [|injection Hstep as <-; exact HP].
    revert Hstep.
    apply (for_each_invariant (fun st : google_state => Forall (scored nfkd unicode_isdigit query match_isbn) (snd st)));
      [|exact HP].
    clear; intros st item st' HP Hstep.
    unfold google_item_step in Hstep.
    destruct (item_id item) as [id|]; [|discriminate].
    destruct (List.existsb _ _); [injection Hstep as <-; exact HP|].
    destruct (google_book _ _ _ _ _ _) as [b|e] eqn:Eb; simpl in Hstep;
      [|discriminate].
    injection Hstep as <-; simpl.
    apply Forall_app; split; [exact HP|].
    constructor; [|constructor].
    eapply google_book_scored; exact Eb.
Qed.

Lemma ol_docs_loop_scored (items : list ol_doc) (results : list book) :
  Forall (scored nfkd unicode_isdigit query match_isbn) results ->
  Forall (scored nfkd unicode_isdigit query match_isbn)
    (fst (ol_docs_loop nfkd unicode_isdigit query match_isbn items results)).
Proof.
  revert results; induction items as [|item items IH]; intros results H;
    simpl; [exact H|].
  destruct (ol_book _ _ _ _ _) as [b|e] eqn:Eb; [|exact H].
  apply IH, Forall_app; split; [exact H|].
  constructor; [|constructor].
  eapply ol_book_scored; exact Eb.
Qed.

Lemma search_open_library_scored (client : pystr -> http_outcome) :
  Forall (scored nfkd unicode_isdigit query match_isbn)
    (search_open_library nfkd unicode_isdigit client query match_isbn).
Proof.
  unfold search_open_library.
  destruct (client _) as [e|code json]; [constructor|].
  destruct (negb _); [constructor|].
  destruct json as [data|]; [|constructor].
  destruct (doc_docs data) as [items|]; [|constructor].
  apply ol_docs_loop_scored; constructor.
Qed.

Lemma scored_rank (b : book) : (scored nfkd unicode_isdigit query match_isbn) b -> score b = rank_score b.
Proof. intros ->; reflexivity. Qed.

End ProviderFacts.

(** ** Scores of a candidate *)

Lemma calculate_match_score_range
      (nfkd : pystr -> pystr) (unicode_isdigit : N -> bool)
      (b : fields) (query : pystr) (match_isbn : option pystr) :
  (0 <= calculate_match_score nfkd unicode_isdigit b query match_isbn <= 100)%Z.
Proof.
  unfold calculate_match_score.
  repeat match goal with
         | |- context [if ?c then _ else _] => destruct c
         end; lia.
Qed.

Lemma calculate_content_score_range (nfkd : pystr -> pystr) (b : fields) :
  (0 <= calculate_content_score nfkd b <= 100)%Z.
Proof. unfold calculate_content_score; lia. Qed.

(** C3: a candidate built by either provider has a match score and a content
    score between 0 and 100, and its rank score is their sum. *)
Theorem candidate_scores_bounded :
  forall (nfkd : pystr -> pystr) (unicode_isdigit : N -> bool)
         (query : pystr) (match_isbn : option pystr) (b : book),
    (exists id item,
        google_book nfkd unicode_isdigit id item query match_isbn = Ok b) \/
    (exists item, ol_book nfkd unicode_isdigit item query match_isbn = Ok b) ->
    (0 <= match_score b <= 100)%Z /\
    (0 <= content_score b <= 100)%Z /\
    rank_score b = (match_score b + content_score b)%Z.
Proof.
  intros nfkd ud query match_isbn b H.
  assert (Hs : scored nfkd ud query match_isbn b).
  { destruct H as [[id [item H]]|[item H]].
    - eapply google_book_scored; exact H.
    - eapply ol_book_scored; exact H. }
  rewrite Hs; simpl.
  split; [apply calculate_match_score_range|].
  split; [apply calculate_content_score_range | reflexivity].
Qed.

Lemma candidate_scores_bounded_witness :
  exists b : book,
    ol_book nfkd_fragment no_unicode_digit messiah_doc (lit "Dune") None
    = Ok b /\
    match_score b = 55%Z /\ content_score b = 30%Z /\
    rank_score b = (match_score b + content_score b)%Z.
Proof.
  eexists; split; [vm_compute; reflexivity|].
  split; [reflexivity|]. split; [reflexivity|].
  refine (proj2 (proj2 (@candidate_scores_bounded nfkd_fragment
                          no_unicode_digit (lit "Dune") None _ _))).
  right; exists messiah_doc; vm_compute; reflexivity.
Defined.

(** ** The aggregator *)

(** C1: when [search_aggregated] returns, its list is in non-increasing order
    of rank score, and the candidates of any one rank score stand in the
    order they have in the merged sequence, the results of Google followed
    by those of OpenLibrary.  It returns whenever [search_google] does. *)
Theorem search_aggregated_sorted_stable :
  forall (nfkd : pystr -> pystr) (unicode_isdigit : N -> bool)
         (client : pystr -> http_outcome) (query : pystr)
         (match_isbn : option pystr) (g_results : list book),
    search_google nfkd unicode_isdigit client query match_isbn = Ok g_results ->
    exists out,
      search_aggregated nfkd unicode_isdigit client query match_isbn = Ok out /\
      Sorted (fun a b : book => (rank_score b <= rank_score a)%Z) out /\
      forall k : Z,
        List.filter (fun b : book => Z.eqb (rank_score b) k) out
        = List.filter (fun b : book => Z.eqb (rank_score b) k)
            (List.filter (fun b : book => Z.leb MATCH_THRESHOLD (match_score b))
               (g_results
                ++ search_open_library nfkd unicode_isdigit client query
                     match_isbn)).
Proof.
  intros nfkd ud client query match_isbn g Hg.
  unfold search_aggregated; rewrite Hg; simpl bind.
  set (ol := search_open_library nfkd ud client query match_isbn).
  set (filtered :=
         List.filter (fun b : book => Z.leb MATCH_THRESHOLD (match_score b))
                     (g ++ ol)).
  assert (Hsc : Forall (scored nfkd ud query match_isbn) filtered).
  { apply Forall_forall; intros b Hb.
    apply filter_In in Hb; destruct Hb as [Hb _].
    apply in_app_or in Hb; destruct Hb as [Hb|Hb].
    - pose proof (@search_google_scored _ _ _ _ _ _ Hg) as F.
      rewrite Forall_forall in F; apply F; exact Hb.
    - pose proof (search_open_library_scored nfkd ud query match_isbn client)
        as F.
      rewrite Forall_forall in F; apply F; exact Hb. }
  assert (Hout : forall b, In b (sort_desc score filtered) ->
                           score b = rank_score b).
  { intros b Hb. apply (scored_rank (nfkd := nfkd) (unicode_isdigit := ud)
                          (query := query) (match_isbn := match_isbn)).
    rewrite Forall_forall in Hsc; apply Hsc.
    eapply Permutation_in; [apply Permutation_sym, sort_desc_perm | exact Hb]. }
  eexists; split; [reflexivity|]; split.
  - apply Sorted_ext_in with (R := desc_by score); [|apply sort_desc_sorted].
    unfold desc_by; intros a b Ha Hb Hab.
    rewrite <- (Hout a Ha), <- (Hout b Hb); exact Hab.
  - intros k.
    rewrite (filter_ext_in (fun b : book => Z.eqb (rank_score b) k)
                           (fun b : book => Z.eqb (score b) k)
                           (sort_desc score filtered))
      by (intros b Hb; rewrite (Hout b Hb); reflexivity).
    rewrite sort_desc_stable.
    apply filter_ext_in; intros b Hb.
    rewrite Forall_forall in Hsc.
    rewrite (scored_rank (Hsc b Hb)); reflexivity.
Qed.

Lemma search_aggregated_sorted_stable_witness :
  exists out,
    search_aggregated nfkd_fragment no_unicode_digit dune_client (lit "Dune")
                      None = Ok out /\
    Sorted (fun a b : book => (rank_score b <= rank_score a)%Z) out.
Proof.
  eassert (Hg : search_google nfkd_fragment no_unicode_digit dune_client
                              (lit "Dune") None = Ok _)
    by (vm_compute; reflexivity).
  destruct (search_aggregated_sorted_stable _ _ _ _ _ Hg)
    as [out [Hout [Hsorted _]]].
  exists out; split; assumption.
Defined.

(** C2: a list returned by [search_aggregated] holds no candidate whose match
    score is under [MATCH_THRESHOLD], which is 40, and it holds every
    candidate of the merged provider results whose match score reaches it. *)
Theorem search_aggregated_threshold :
  forall (nfkd : pystr -> pystr) (unicode_isdigit : N -> bool)
         (client : pystr -> http_outcome) (query : pystr)
         (match_isbn : option pystr) (out : list book),
    search_aggregated nfkd unicode_isdigit client query match_isbn = Ok out ->
    MATCH_THRESHOLD = 40%Z /\
    (forall b : book, In b out -> ~ (match_score b < MATCH_THRESHOLD)%Z) /\
    exists g_results,
      search_google nfkd unicode_isdigit client query match_isbn = Ok g_results /\
      Permutation out
        (List.filter (fun b : book => Z.leb MATCH_THRESHOLD (match_score b))
           (g_results
            ++ search_open_library nfkd unicode_isdigit client query
                 match_isbn)) /\
      forall b : book,
        In b (g_results
              ++ search_open_library nfkd unicode_isdigit client query
                   match_isbn) ->
        (MATCH_THRESHOLD <= match_score b)%Z -> In b out.
Proof.
  intros nfkd ud client query match_isbn out H.
  unfold search_aggregated in H.
  destruct (search_google nfkd ud client query match_isbn) as [g|e] eqn:Hg;
    simpl in H; [|discriminate].
  injection H as <-.
  set (combined := g ++ search_open_library nfkd ud client query match_isbn).
  assert (P : Permutation
                (sort_desc score
                   (List.filter
                      (fun b : book => Z.leb MATCH_THRESHOLD (match_score b))
                      combined))
                (List.filter
                   (fun b : book => Z.leb MATCH_THRESHOLD (match_score b))
                   combined))
    by apply Permutation_sym, sort_desc_perm.
  split; [reflexivity|]. split.
  - intros b Hb.
    apply (Permutation_in _ P), filter_In in Hb.
    destruct Hb as [_ Hb]; apply Z.leb_le in Hb; lia.
  - exists g; split; [reflexivity|]. split; [exact P|].
    intros b Hb Hm.
    apply (Permutation_in _ (Permutation_sym P)), filter_In.
    split; [exact Hb | apply Z.leb_le; exact Hm].
Qed.

Lemma search_aggregated_threshold_witness :
  exists out,
    search_aggregated nfkd_fragment no_unicode_digit dune_client (lit "Dune")
                      None = Ok out /\
    List.length out = 4%nat /\
    forall b : book, In b out -> ~ (match_score b < MATCH_THRESHOLD)%Z.
Proof.
  eassert (Hout : search_aggregated nfkd_fragment no_unicode_digit dune_client
                                    (lit "Dune") None = Ok _)
    by (vm_compute; reflexivity).
  eexists; split; [exact Hout|]. split; [reflexivity|].
  exact (proj1 (proj2 (search_aggregated_threshold _ _ _ _ _ Hout))).
Defined.

(** ** The match score *)

Lemma eqb_eq (a b : pystr) : eqb a b = true <-> a = b.
Proof.
  unfold eqb; destruct (list_eq_dec N.eq_dec a b); split; congruence.
Qed.

Lemma eqb_refl (a : pystr) : eqb a a = true.
Proof. apply eqb_eq; reflexivity. Qed.

Lemma eqb_neq (a b : pystr) : a <> b -> eqb a b = false.
Proof.
  intros H; destruct (eqb a b) eqn:E; [|reflexivity].
  apply eqb_eq in E; contradiction.
Qed.

Lemma truthy_strip_isbn (s : pystr) :
  truthy (strip_isbn s) = true -> truthy s = true.
Proof. destruct s; [discriminate | reflexivity]. Qed.

(** C4, as the code has it: when the external identifier, with hyphens and
    spaces removed, is not empty and equals the identifier of the candidate
    with hyphens and spaces removed, [calculate_match_score] is 100 whatever
    the title, the author and the query are. *)
Theorem oracle_override :
  forall (nfkd : pystr -> pystr) (unicode_isdigit : N -> bool)
         (b : fields) (query match_isbn : pystr),
    truthy (strip_isbn match_isbn) = true ->
    strip_isbn match_isbn = strip_isbn (str_of (isbn b)) ->
    calculate_match_score nfkd unicode_isdigit b query (Some match_isbn)
    = 100%Z.
Proof.
  intros nfkd ud b query m Hne Heq.
  unfold calculate_match_score, oracle_hit.
  rewrite (truthy_strip_isbn m Hne), Hne, <- Heq, eqb_refl.
  reflexivity.
Qed.

Lemma oracle_override_witness :
  calculate_match_score nfkd_fragment no_unicode_digit
    (gardening_with_isbn (Some (lit "9780441172719"))) (lit "Dune")
    (Some (lit "978-0-441-17271-9")) = 100%Z.
Proof.
  apply (@oracle_override nfkd_fragment no_unicode_digit
           (gardening_with_isbn (Some (lit "9780441172719"))) (lit "Dune")
           (lit "978-0-441-17271-9")); reflexivity.
Defined.

(** The external identifier "-" is not empty and, stripped, equals the
    stripped identifier of a candidate whose identifier is the empty string;
    the candidate scores 0. *)
Lemma oracle_override_blank_identifier :
  truthy (lit "-") = true /\
  strip_isbn (lit "-") = strip_isbn (str_of (isbn (gardening_with_isbn (Some [])))) /\
  calculate_match_score nfkd_fragment no_unicode_digit
    (gardening_with_isbn (Some [])) (lit "Dune") (Some (lit "-")) = 0%Z /\
  calculate_match_score nfkd_fragment no_unicode_digit
    (gardening_with_isbn (Some [])) (lit "Dune") (Some (lit "-")) <> 100%Z.
Proof. repeat split; discriminate. Qed.

(** C5: when neither identifier rule returns, the score is the contribution
    of the first applicable rule of the title table plus the author bonus,
    capped at 100; and when one normalized text starts with the other
    followed by a space, the titles being different, the title contributes
    55. *)
Theorem title_tier_first_applicable :
  forall (nfkd : pystr -> pystr) (unicode_isdigit : N -> bool)
         (b : fields) (query : pystr) (match_isbn : option pystr),
    oracle_hit b match_isbn = false ->
    isbn_query_hit unicode_isdigit b query = false ->
    let q := normalize_text nfkd (Some query) in
    let t := normalize_text nfkd (Some (title b)) in
    let a := normalize_text nfkd (Some (author b)) in
    calculate_match_score nfkd unicode_isdigit b query match_isbn
    = Z.min (spec_title_tier t q + spec_author_bonus a q) 100 /\
    (startswith t (q ++ lit " ") = true \/ startswith q (t ++ lit " ") = true ->
     t <> q ->
     spec_title_tier t q = 55%Z /\
     calculate_match_score nfkd unicode_isdigit b query match_isbn
     = (55 + spec_author_bonus a q)%Z).
Proof.
  intros nfkd ud b query m Ho Hi q t a.
  assert (E : calculate_match_score nfkd ud b query m
              = Z.min (spec_title_tier t q + spec_author_bonus a q) 100).
  { unfold calculate_match_score, spec_title_tier, spec_title_rules,
      first_applicable, spec_author_bonus.
    rewrite Ho, Hi. fold q t a.
    destruct (eqb t q), (startswith t (q ++ lit " ")),
      (startswith q (t ++ lit " ")), (startswith t q), (startswith q t),
      (contains q t), (truthy a), (contains a q), (contains q a);
      reflexivity. }
  split; [exact E|].
  intros Hp Hne.
  assert (T : spec_title_tier t q = 55%Z).
  { unfold spec_title_tier, spec_title_rules, first_applicable.
    rewrite (eqb_neq Hne).
    destruct Hp as [-> | ->]; [reflexivity | rewrite orb_true_r; reflexivity]. }
  split; [exact T|].
  rewrite E, T. unfold spec_author_bonus.
  destruct (truthy a && (contains a q || contains q a)); reflexivity.
Qed.

Lemma title_tier_first_applicable_witness :
  spec_title_tier (lit "dune messiah") (lit "dune") = 55%Z /\
  calculate_match_score nfkd_fragment no_unicode_digit messiah_fields
    (lit "Dune") None = 55%Z.
Proof.
  destruct (@title_tier_first_applicable nfkd_fragment no_unicode_digit
              messiah_fields (lit "Dune") None eq_refl eq_refl) as [_ H].
  destruct H as [T S]; [left; reflexivity | discriminate |].
  split; [exact T | exact S].
Defined.

(** ** The identifier of a Google candidate *)

Lemma find_snoc (A : Type) (p : A -> bool) (l : list A) (x : A) :
  List.find p (l ++ [x])
  = match List.find p l with
    | Some y => Some y
    | None => if p x then Some x else None
    end.
Proof.
  induction l as [|y l IH]; simpl; [reflexivity|].
  destruct (p y); [reflexivity | exact IH].
Qed.

(** The loop leaves in [isbn] the identifier of the last entry of the
    13-digit type, or what [isbn] held when there is none. *)
Lemma pick_isbn_last (idents : list identifier_entry) :
  forall (isbn r : option pystr),
    pick_isbn idents isbn = Ok r ->
    r = match last_isbn13 idents with
        | Some e => ident_identifier e
        | None => isbn
        end /\
    (forall e, last_isbn13 idents = Some e -> ident_identifier e <> None).
Proof.
  unfold last_isbn13.
  induction idents as [|e idents IH]; intros acc r H; simpl in H.
  - injection H as <-; split; [reflexivity | discriminate].
  - simpl List.rev; rewrite find_snoc.
    unfold is_isbn13 at 2 4.
    destruct (ident_type e) as [ty|]; [|discriminate].
    destruct (eqb ty (lit "ISBN_13")).
    + destruct (ident_identifier e) as [v|] eqn:Ev; [|discriminate].
      destruct (IH _ _ H) as [IH1 IH2].
      destruct (List.find is_isbn13 (List.rev idents)) as [e'|].
      * split; [exact IH1|]. intros e0 [= <-]; apply IH2; reflexivity.
      * split; [rewrite Ev; exact IH1|]. intros e0 [= <-]; congruence.
    + destruct (IH _ _ H) as [IH1 IH2].
      destruct (List.find is_isbn13 (List.rev idents)) as [e'|].
      * split; [exact IH1|]. intros e0 [= <-]; apply IH2; reflexivity.
      * split; [exact IH1 | discriminate].
Qed.

(** C7, as the code has it: the [isbn] of a Google candidate whose
    identifier list has an entry of the type ISBN_13 is the identifier of the
    last such entry of the list. *)
Theorem google_isbn_is_last_isbn13 :
  forall (nfkd : pystr -> pystr) (unicode_isdigit : N -> bool)
         (id : pystr) (item : google_item) (query : pystr)
         (match_isbn : option pystr) (b : book) (e : identifier_entry),
    google_book nfkd unicode_isdigit id item query match_isbn = Ok b ->
    last_isbn13
      (get (vol_industryIdentifiers (get (item_volumeInfo item) empty_volume))
           []) = Some e ->
    isbn b = ident_identifier e /\ exists v, isbn b = Some v.
Proof.
  intros nfkd ud id item query m b e H He.
  unfold google_book in H.
  destruct (pick_isbn _ None) as [r|x] eqn:Hp; simpl in H; [|discriminate].
  injection H as <-; simpl.
  destruct (pick_isbn_last _ _ Hp) as [Hr Hsome].
  rewrite He in Hr. specialize (Hsome e He).
  split; [exact Hr|].
  rewrite Hr; destruct (ident_identifier e) as [v|]; [exists v; reflexivity|].
  congruence.
Qed.

Lemma google_isbn_is_last_isbn13_witness :
  exists b : book,
    google_book nfkd_fragment no_unicode_digit (lit "g7") two_isbn13_item
                (lit "Dune") None = Ok b /\
    isbn b = Some (lit "9780593099322").
Proof.
  eassert (Hb : google_book nfkd_fragment no_unicode_digit (lit "g7")
                            two_isbn13_item (lit "Dune") None = Ok _)
    by (vm_compute; reflexivity).
  eexists; split; [exact Hb|].
  exact (proj1 (@google_isbn_is_last_isbn13 _ _ _ _ _ _ _
                  (isbn13_entry "9780593099322") Hb eq_refl)).
Defined.

(** An item with two entries of the type ISBN_13: the candidate takes the
    identifier of the second, not of the first. *)
Lemma google_isbn_not_first_isbn13 :
  first_isbn13
    (get (vol_industryIdentifiers
            (get (item_volumeInfo two_isbn13_item) empty_volume)) [])
  = Some (isbn13_entry "9780441172719") /\
  exists b : book,
    google_book nfkd_fragment no_unicode_digit (lit "g7") two_isbn13_item
                (lit "Dune") None = Ok b /\
    isbn b = Some (lit "9780593099322") /\
    isbn b <> ident_identifier (isbn13_entry "9780441172719").
Proof.
  split; [reflexivity|].
  eexists; split; [vm_compute; reflexivity|].
  split; [reflexivity | discriminate].
Qed.

(** ** Failures of a provider *)

(** C6 at a body that does not parse: when the first request of
    [search_google] is answered with status 200 and a body that is not JSON,
    [search_google] raises, and so does [search_aggregated]. *)
Theorem search_google_raises_on_bad_body :
  forall (nfkd : pystr -> pystr) (unicode_isdigit : N -> bool)
         (client : pystr -> http_outcome) (query : pystr)
         (match_isbn : option pystr),
    client (google_url (List.hd [] (google_strategies unicode_isdigit query)))
    = Responded 200 None ->
    search_google nfkd unicode_isdigit client query match_isbn
    = Raise JSONDecodeError /\
    search_aggregated nfkd unicode_isdigit client query match_isbn
    = Raise JSONDecodeError.
Proof.
  intros nfkd ud client query m H.
  assert (G : search_google nfkd ud client query m = Raise JSONDecodeError).
  { unfold search_google, google_strategies in *.
    destruct (is_isbn ud query); simpl in H |- *; rewrite H; reflexivity. }
  split; [exact G|].
  unfold search_aggregated; rewrite G; reflexivity.
Qed.

Lemma search_google_raises_on_bad_body_witness :
  search_google nfkd_fragment no_unicode_digit broken_google_client
                (lit "Dune") None = Raise JSONDecodeError /\
  search_aggregated nfkd_fragment no_unicode_digit broken_google_client
                    (lit "Dune") None = Raise JSONDecodeError.
Proof.
  apply (@search_google_raises_on_bad_body nfkd_fragment no_unicode_digit
           broken_google_client (lit "Dune") None).
  reflexivity.
Defined.

(** What [search_google] does absorb: a request that fails and a status
    other than 200 leave the loop state as it was. *)
Lemma google_response_step_absorbs
      (nfkd : pystr -> pystr) (unicode_isdigit : N -> bool)
      (query : pystr) (match_isbn : option pystr) (st : google_state)
      (resp : http_outcome) :
  (exists e, resp = Failed e) \/
  (exists code json, resp = Responded code json /\ code <> 200%Z) ->
  google_response_step nfkd unicode_isdigit query match_isbn st resp = Ok st.
Proof.
  intros [[e ->]|[code [json [-> Hc]]]]; simpl; [reflexivity|].
  destruct (Z.eqb_spec code 200); [contradiction | reflexivity].
Qed.

(** [search_open_library] gives the empty list on a failed request, on a
    status other than 200 and on a body that does not parse. *)
Lemma search_open_library_absorbs
      (nfkd : pystr -> pystr) (unicode_isdigit : N -> bool)
      (client : pystr -> http_outcome) (query : pystr)
      (match_isbn : option pystr) :
  (exists e, client (ol_url query) = Failed e) \/
  (exists code json,
      client (ol_url query) = Responded code json /\
      (code <> 200%Z \/ json = None)) ->
  search_open_library nfkd unicode_isdigit client query match_isbn = [].
Proof.
  unfold search_open_library.
  intros [[e ->]|[code [json [-> Hc]]]]; [reflexivity|].
  destruct (Z.eqb_spec code 200) as [->|Hne]; simpl; [|reflexivity].
  destruct Hc as [Hc| ->]; [contradiction | reflexivity].
Qed.

(** ** The scenario of the specification *)

Lemma len_truthy (s : pystr) : (0 < len s)%Z -> truthy s = true.
Proof. destruct s; [unfold len; simpl; lia | reflexivity]. Qed.

(** C8: for the query "Dune" without an external identifier, a candidate
    titled "Dune" by "Frank Herbert" with a summary of 200 characters, 412
    pages, a cover that is not the placeholder, a year and an identifier has
    match score 60, content score 100 and rank score 160. *)
Theorem dune_scenario :
  forall (nfkd : pystr -> pystr) (unicode_isdigit : N -> bool),
    (forall s, Forall (fun c => is_ascii c = true) s -> nfkd s = s) ->
    forall (b : fields),
      title b = lit "Dune" ->
      author b = lit "Frank Herbert" ->
      len (summary b) = 200%Z ->
      pages b = 412%Z ->
      truthy (cover b) = true ->
      contains (lit "placeholder") (cover b) = false ->
      truthy (year b) = true ->
      truthy_opt (isbn b) = true ->
      calculate_match_score nfkd unicode_isdigit b (lit "Dune") None = 60%Z /\
      calculate_content_score nfkd b = 100%Z /\
      rank_score (with_scores nfkd unicode_isdigit b (lit "Dune") None) = 160%Z.
Proof.
  intros nfkd ud Hascii b Ht Ha Hs Hp Hc Hph Hy Hi.
  assert (Nq : normalize_text nfkd (Some (lit "Dune")) = lit "dune")
    by (rewrite normalize_text_ascii;
        [reflexivity | exact Hascii | repeat constructor]).
  assert (Na : normalize_text nfkd (Some (lit "Frank Herbert"))
               = lit "frank herbert")
    by (rewrite normalize_text_ascii;
        [reflexivity | exact Hascii | repeat constructor]).
  assert (M : calculate_match_score nfkd ud b (lit "Dune") None = 60%Z).
  { unfold calculate_match_score, oracle_hit, isbn_query_hit.
    rewrite Ht, Ha, Nq, Na. reflexivity. }
  assert (C : calculate_content_score nfkd b = 100%Z).
  { unfold calculate_content_score.
    rewrite Ht, Ha, Nq, Na, Hc, Hph, Hy, Hi, Hp, Hs.
    rewrite (len_truthy (summary b)) by lia.
    reflexivity. }
  split; [exact M|]. split; [exact C|].
  simpl; rewrite M, C; reflexivity.
Qed.

Lemma dune_scenario_witness :
  calculate_match_score nfkd_fragment no_unicode_digit dune_full (lit "Dune")
                        None = 60%Z /\
  calculate_content_score nfkd_fragment dune_full = 100%Z /\
  rank_score (with_scores nfkd_fragment no_unicode_digit dune_full (lit "Dune")
                          None) = 160%Z.
Proof.
  apply (@dune_scenario nfkd_fragment no_unicode_digit nfkd_fragment_ascii
           dune_full); reflexivity.
Defined.

(** ** A query that normalizes to the empty string *)

Lemma startswith_nil (s : pystr) : startswith s [] = true.
Proof. destruct s; reflexivity. Qed.

Lemma contains_nil (s : pystr) : contains [] s = true.
Proof. destruct s; reflexivity. Qed.

Lemma match_score_of_empty_query
      (nfkd : pystr -> pystr) (unicode_isdigit : N -> bool)
      (b : fields) (query : pystr) (match_isbn : option pystr) :
  normalize_text nfkd (Some query) = [] ->
  oracle_hit b match_isbn = false ->
  isbn_query_hit unicode_isdigit b query = false ->
  calculate_match_score nfkd unicode_isdigit b query match_isbn
  = ((if truthy (normalize_text nfkd (Some (title b))) then 40 else 60)
     + (if truthy (normalize_text nfkd (Some (author b))) then 30 else 0))%Z.
Proof.
  intros Hq Ho Hi.
  unfold calculate_match_score; rewrite Ho, Hi, Hq.
  pose proof (normalize_text_no_leading_space nfkd (Some (title b))) as Hsp.
  change ([] ++ lit " ") with (lit " "); rewrite Hsp.
  destruct (normalize_text nfkd (Some (title b))) as [|c t];
    destruct (normalize_text nfkd (Some (author b))) as [|d a]; reflexivity.
Qed.

Lemma match_score_of_empty_query_ge
      (nfkd : pystr -> pystr) (unicode_isdigit : N -> bool)
      (b : fields) (query : pystr) (match_isbn : option pystr) :
  normalize_text nfkd (Some query) = [] ->
  (MATCH_THRESHOLD
   <= calculate_match_score nfkd unicode_isdigit b query match_isbn)%Z.
Proof.
  intros Hq.
  destruct (oracle_hit b match_isbn) eqn:Ho;
    [unfold calculate_match_score; rewrite Ho; unfold MATCH_THRESHOLD; lia|].
  destruct (isbn_query_hit unicode_isdigit b query) eqn:Hi;
    [unfold calculate_match_score; rewrite Ho, Hi; unfold MATCH_THRESHOLD; lia|].
  rewrite (@match_score_of_empty_query _ _ _ _ _ Hq Ho Hi).
  unfold MATCH_THRESHOLD.
  destruct (truthy _), (truthy _); lia.
Qed.

(** C10: for a query that normalizes to the empty string and is not an
    identifier, the title contributes 60 when the normalized title is empty
    and 40 otherwise, a candidate with a non-empty normalized author gets 30
    more, every candidate has a match score of at least 40, and the filter of
    [search_aggregated] keeps the whole merged list. *)
Theorem empty_query_keeps_everything :
  forall (nfkd : pystr -> pystr) (unicode_isdigit : N -> bool) (query : pystr),
    normalize_text nfkd (Some query) = [] ->
    is_isbn unicode_isdigit query = false ->
    (forall (b : fields) (match_isbn : option pystr),
        oracle_hit b match_isbn = false ->
        calculate_match_score nfkd unicode_isdigit b query match_isbn
        = ((if truthy (normalize_text nfkd (Some (title b))) then 40 else 60)
           + (if truthy (normalize_text nfkd (Some (author b))) then 30 else 0))%Z) /\
    (forall (b : fields) (match_isbn : option pystr),
        (40 <= calculate_match_score nfkd unicode_isdigit b query match_isbn)%Z) /\
    (forall (client : pystr -> http_outcome) (match_isbn : option pystr)
            (g_results : list book),
        search_google nfkd unicode_isdigit client query match_isbn
        = Ok g_results ->
        let combined :=
          g_results
          ++ search_open_library nfkd unicode_isdigit client query match_isbn in
        Forall (fun b : book => (40 <= match_score b)%Z) combined /\
        List.filter (fun b : book => Z.leb MATCH_THRESHOLD (match_score b))
                    combined = combined /\
        search_aggregated nfkd unicode_isdigit client query match_isbn
        = Ok (sort_desc score combined)).
Proof.
  intros nfkd ud query Hq Hn.
  split; [|split].
  - intros b m Ho. apply match_score_of_empty_query; [exact Hq | exact Ho|].
    unfold isbn_query_hit; rewrite Hn; reflexivity.
  - intros b m. apply (@match_score_of_empty_query_ge nfkd ud b query m Hq).
  - intros client m g Hg combined.
    assert (F : Forall (fun b : book => (40 <= match_score b)%Z) combined).
    { apply Forall_forall; intros b Hb.
      assert (Hs : scored nfkd ud query m b).
      { apply in_app_or in Hb; destruct Hb as [Hb|Hb].
        - pose proof (@search_google_scored _ _ _ _ _ _ Hg) as S.
          rewrite Forall_forall in S; apply S; exact Hb.
        - pose proof (search_open_library_scored nfkd ud query m client) as S.
          rewrite Forall_forall in S; apply S; exact Hb. }
      rewrite Hs; simpl.
      apply (@match_score_of_empty_query_ge nfkd ud b query m Hq). }
    assert (E : List.filter
                  (fun b : book => Z.leb MATCH_THRESHOLD (match_score b))
                  combined = combined).
    { apply filter_id. eapply Forall_impl; [|exact F].
      intros b Hb; apply Z.leb_le; exact Hb. }
    split; [exact F|]. split; [exact E|].
    unfold search_aggregated; rewrite Hg; simpl bind.
    fold combined; rewrite E; reflexivity.
Qed.

Lemma empty_query_keeps_everything_witness :
  calculate_match_score nfkd_fragment no_unicode_digit messiah_fields
                        (lit "?!") None = 70%Z /\
  exists out,
    search_aggregated nfkd_fragment no_unicode_digit dune_client (lit "?!") None
    = Ok out /\ List.length out = 5%nat.
Proof.
  destruct (@empty_query_keeps_everything nfkd_fragment no_unicode_digit
              (lit "?!") eq_refl eq_refl) as [H1 [_ H3]].
  split; [exact (H1 messiah_fields None eq_refl)|].
  eassert (Hg : search_google nfkd_fragment no_unicode_digit dune_client
                              (lit "?!") None = Ok _)
    by (vm_compute; reflexivity).
  destruct (H3 dune_client None _ Hg) as [_ [_ Hout]].
  eexists; split; [exact Hout | reflexivity].
Defined.

(** ** More on [is_isbn] and the match score *)

Lemma is_isbn_of_stripped (unicode_isdigit : N -> bool) (query : pystr) :
  is_isbn unicode_isdigit query
  = str_isdigit unicode_isdigit (strip_isbn query)
    && (Z.eqb (len (strip_isbn query)) 10 || Z.eqb (len (strip_isbn query)) 13).
Proof. destruct query; reflexivity. Qed.

(** X1: [is_isbn] sees a query only through its characters other than
    hyphens and spaces: two queries that agree once these are removed are
    both identifiers or both not. *)
Theorem is_isbn_ignores_hyphens_and_spaces :
  forall (unicode_isdigit : N -> bool) (q q' : pystr),
    strip_isbn q = strip_isbn q' ->
    is_isbn unicode_isdigit q = is_isbn unicode_isdigit q'.
Proof.
  intros ud q q' H. rewrite !is_isbn_of_stripped, H. reflexivity.
Qed.

Lemma is_isbn_ignores_hyphens_and_spaces_witness :
  is_isbn no_unicode_digit (lit "978-0-13-468599-1")
  = is_isbn no_unicode_digit (lit "978 0134685991").
Proof.
  apply (@is_isbn_ignores_hyphens_and_spaces no_unicode_digit
           (lit "978-0-13-468599-1") (lit "978 0134685991")).
  reflexivity.
Defined.

(** X2: a query that is itself an identifier and, stripped, equals the
    stripped identifier of the candidate gives the match score 100, with or
    without an external identifier. *)
Theorem identifier_query_scores_100 :
  forall (nfkd : pystr -> pystr) (unicode_isdigit : N -> bool)
         (b : fields) (query : pystr) (match_isbn : option pystr),
    is_isbn unicode_isdigit query = true ->
    strip_isbn query = strip_isbn (str_of (isbn b)) ->
    calculate_match_score nfkd unicode_isdigit b query match_isbn = 100%Z.
Proof.
  intros nfkd ud b query m Hi He.
  unfold calculate_match_score, isbn_query_hit.
  rewrite Hi, <- He, eqb_refl.
  destruct (oracle_hit b m); reflexivity.
Qed.

Lemma identifier_query_scores_100_witness :
  calculate_match_score nfkd_fragment no_unicode_digit
    (gardening_with_isbn (Some (lit "9780441172719")))
    (lit "978-0-441-17271-9") None = 100%Z.
Proof.
  apply (@identifier_query_scores_100 nfkd_fragment no_unicode_digit
           (gardening_with_isbn (Some (lit "9780441172719")))
           (lit "978-0-441-17271-9") None); reflexivity.
Defined.

(** X3: the match score is 100 exactly when one of the two identifier rules
    returns; title and author alone give at most 90. *)
Theorem match_score_100_iff_identifier :
  forall (nfkd : pystr -> pystr) (unicode_isdigit : N -> bool)
         (b : fields) (query : pystr) (match_isbn : option pystr),
    (calculate_match_score nfkd unicode_isdigit b query match_isbn = 100%Z <->
     oracle_hit b match_isbn = true \/
     isbn_query_hit unicode_isdigit b query = true) /\
    (oracle_hit b match_isbn = false ->
     isbn_query_hit unicode_isdigit b query = false ->
     (calculate_match_score nfkd unicode_isdigit b query match_isbn <= 90)%Z).
Proof.
  intros nfkd ud b query m.
  assert (L : oracle_hit b m = false -> isbn_query_hit ud b query = false ->
              (calculate_match_score nfkd ud b query m <= 90)%Z).
  { intros Ho Hi. unfold calculate_match_score. rewrite Ho, Hi.
    repeat match goal with
           | |- context [if ?c then _ else _] => destruct c
           end; lia. }
  split; [|exact L].
  destruct (oracle_hit b m) eqn:Ho.
  - unfold calculate_match_score; rewrite Ho; tauto.
  - destruct (isbn_query_hit ud b query) eqn:Hi.
    + unfold calculate_match_score; rewrite Ho, Hi; tauto.
    + specialize (L eq_refl eq_refl).
      split; [lia | intros [H|H]; discriminate].
Qed.

Lemma match_score_100_iff_identifier_witness :
  (calculate_match_score nfkd_fragment no_unicode_digit dune_full (lit "Dune")
                         None <= 90)%Z.
Proof.
  exact (proj2 (@match_score_100_iff_identifier nfkd_fragment no_unicode_digit
                  dune_full (lit "Dune") None) eq_refl eq_refl).
Defined.

(** ** More on the content score *)

(** X4: a candidate with a page count of 0 has a content score of at most
    35, whatever its other fields are. *)
Theorem zero_pages_content_score :
  forall (nfkd : pystr -> pystr) (b : fields),
    pages b = 0%Z ->
    (calculate_content_score nfkd b <= 35)%Z.
Proof.
  intros nfkd b Hp. unfold calculate_content_score. rewrite Hp.
  change (Z.eqb 0 0) with true. cbv iota.
  repeat match goal with
         | |- context [if ?c then _ else _] => destruct c
         end; lia.
Qed.

Lemma zero_pages_content_score_witness :
  calculate_content_score nfkd_fragment zero_pages_fields = 35%Z /\
  (calculate_content_score nfkd_fragment zero_pages_fields <= 35)%Z.
Proof.
  split; [reflexivity|].
  apply (@zero_pages_content_score nfkd_fragment zero_pages_fields).
  reflexivity.
Defined.

Lemma contains_refl (s : pystr) : contains s s = true.
Proof.
  assert (H : forall t, startswith t t = true).
  { induction t as [|c t IH]; simpl; [reflexivity|].
    rewrite N.eqb_refl; exact IH. }
  destruct s; simpl; [reflexivity|].
  rewrite N.eqb_refl, H; reflexivity.
Qed.

(** X5: a candidate whose author, normalized, is longer than three
    characters and equals its normalized title gets the penalty of 40: its
    content score is at most 55. *)
Theorem self_referential_content_score :
  forall (nfkd : pystr -> pystr) (b : fields),
    normalize_text nfkd (Some (author b))
    = normalize_text nfkd (Some (title b)) ->
    (3 < len (normalize_text nfkd (Some (author b))))%Z ->
    (calculate_content_score nfkd b <= 55)%Z.
Proof.
  intros nfkd b He Hl. unfold calculate_content_score.
  rewrite <- He, contains_refl.
  apply Z.ltb_lt in Hl; rewrite Hl. cbn [andb orb].
  repeat match goal with
         | |- context [if ?c then _ else _] => destruct c
         end; lia.
Qed.

Lemma self_referential_content_score_witness :
  calculate_content_score nfkd_fragment self_titled_fields = 55%Z /\
  (calculate_content_score nfkd_fragment self_titled_fields <= 55)%Z.
Proof.
  split; [reflexivity|].
  apply (@self_referential_content_score nfkd_fragment self_titled_fields);
    reflexivity.
Defined.

(** ** The alphabet of a normalized text *)

Lemma Forall_and_both (A : Type) (P Q : A -> Prop) (l : list A) :
  Forall P l -> Forall Q l -> Forall (fun x => P x /\ Q x) l.
Proof.
  induction 1 as [|x l Hx _ IH]; intros HQ; [constructor|].
  inversion HQ; subst. constructor; [split; assumption | apply IH; assumption].
Qed.

Lemma word_char_alphabet (c : N) :
  norm_char c /\ isspace c = false ->
  c = 32%N \/ in_range 48 57 c = true \/ in_range 97 122 c = true.
Proof.
  intros [H Hs]. unfold norm_char in H.
  apply andb_true_iff in H; destruct H as [H Hu].
  rewrite Hs, orb_false_r in H. unfold isalnum in H.
  apply negb_true_iff in Hu. rewrite Hu, orb_false_r in H.
  apply orb_true_iff in H; tauto.
Qed.

(** X6: a normalized text is made of digits, lower-case letters a to z and
    the space only, and it does not begin with a space. *)
Theorem normalize_text_alphabet :
  forall (nfkd : pystr -> pystr) (text : option pystr),
    Forall (fun c => c = 32%N \/ in_range 48 57 c = true
                     \/ in_range 97 122 c = true)
           (normalize_text nfkd text) /\
    startswith (normalize_text nfkd text) (lit " ") = false.
Proof.
  intros nfkd text.
  split; [|apply normalize_text_no_leading_space].
  destruct text as [[|c s]|]; try constructor.
  unfold normalize_text.
  apply join_chars; [left; reflexivity|].
  set (cleaned := List.filter _ _).
  pose proof (split_words cleaned) as Hw.
  pose proof (split_chars (cleaned_chars
                             (List.filter is_ascii (nfkd (c :: s))))) as Hc.
  fold cleaned in Hc.
  induction Hw as [|w ws [_ Hsp] _ IH]; [constructor|].
  inversion Hc as [|? ? Hcw Hcws]; subst.
  constructor; [|apply IH; exact Hcws].
  eapply Forall_impl; [exact word_char_alphabet|].
  apply Forall_and_both; assumption.
Qed.

(** ** More on the providers *)

Lemma ol_docs_loop_all
      (nfkd : pystr -> pystr) (unicode_isdigit : N -> bool)
      (query : pystr) (match_isbn : option pystr) (P : book -> Prop) :
  (forall item b,
      ol_book nfkd unicode_isdigit item query match_isbn = Ok b -> P b) ->
  forall items results,
    Forall P results ->
    Forall P
      (fst (ol_docs_loop nfkd unicode_isdigit query match_isbn items results)).
Proof.
  intros HP; induction items as [|item items IH]; intros results H; simpl;
    [exact H|].
  destruct (ol_book _ _ _ _ _) as [b|e] eqn:Eb; [|exact H].
  apply IH, Forall_app; split; [exact H|].
  constructor; [eapply HP; exact Eb | constructor].
Qed.

Lemma search_open_library_all
      (nfkd : pystr -> pystr) (unicode_isdigit : N -> bool)
      (query : pystr) (match_isbn : option pystr) (P : book -> Prop)
      (client : pystr -> http_outcome) :
  (forall item b,
      ol_book nfkd unicode_isdigit item query match_isbn = Ok b -> P b) ->
  Forall P (search_open_library nfkd unicode_isdigit client query match_isbn).
Proof.
  intros HP. unfold search_open_library.
  destruct (client _) as [e|code json]; [constructor|].
  destruct (negb _); [constructor|].
  destruct json as [data|]; [|constructor].
  destruct (doc_docs data) as [items|]; [|constructor].
  apply ol_docs_loop_all; [exact HP | constructor].
Qed.

Lemma ol_book_content_score
      (nfkd : pystr -> pystr) (unicode_isdigit : N -> bool)
      (item : ol_doc) (query : pystr) (match_isbn : option pystr) (b : book) :
  ol_book nfkd unicode_isdigit item query match_isbn = Ok b ->
  source b = lit "OpenLibrary" /\ summary b = [] /\
  olid b = Some (source_id b) /\ (content_score b <= 65)%Z.
Proof.
  unfold ol_book; intros H.
  destruct (doc_isbn item) as [[|x l]|]; simpl in H; try discriminate;
    injection H as <-; (repeat split; try reflexivity);
    cbn [content_score with_scores]; unfold calculate_content_score;
    cbn [summary truthy andb negb];
    repeat match goal with
           | |- context [if ?c then _ else _] => destruct c
           end; lia.
Qed.

(** X7: every candidate returned by [search_open_library] has the source
    "OpenLibrary", an empty summary and its own record id as [olid]; since
    the summary is empty its content score is at most 65. *)
Theorem open_library_candidates :
  forall (nfkd : pystr -> pystr) (unicode_isdigit : N -> bool)
         (client : pystr -> http_outcome) (query : pystr)
         (match_isbn : option pystr) (b : book),
    In b (search_open_library nfkd unicode_isdigit client query match_isbn) ->
    source b = lit "OpenLibrary" /\ summary b = [] /\
    olid b = Some (source_id b) /\ (content_score b <= 65)%Z.
Proof.
  intros nfkd ud client query m b Hb.
  pose proof (@search_open_library_all nfkd ud query m
                (fun b : book =>
                   source b = lit "OpenLibrary" /\ summary b = [] /\
                   olid b = Some (source_id b) /\ (content_score b <= 65)%Z)
                client
                (fun item b => @ol_book_content_score nfkd ud item query m b))
    as F.
  rewrite Forall_forall in F. apply F; exact Hb.
Qed.

Lemma open_library_candidates_witness :
  exists b : book,
    In b (search_open_library nfkd_fragment no_unicode_digit dune_client
                              (lit "Dune") None) /\
    source_id b = lit "OL1W" /\ olid b = Some (source_id b) /\
    (content_score b <= 65)%Z.
Proof.
  eassert (Hin : In _ (search_open_library nfkd_fragment no_unicode_digit
                                           dune_client (lit "Dune") None))
    by (vm_compute; left; reflexivity).
  eexists; split; [exact Hin|]. split; [reflexivity|].
  destruct (@open_library_candidates _ _ _ _ _ _ Hin) as [_ [_ [Ho Hc]]].
  split; [exact Ho | exact Hc].
Defined.

Lemma existsb_eqb_false (x : pystr) (l : list pystr) :
  List.existsb (eqb x) l = false -> ~ In x l.
Proof.
  intros H Hin.
  assert (E : List.existsb (eqb x) l = true)
    by (apply existsb_exists; exists x; split; [exact Hin | apply eqb_refl]).
  congruence.
Qed.

Lemma google_item_step_ok
      (nfkd : pystr -> pystr) (unicode_isdigit : N -> bool)
      (query : pystr) (match_isbn : option pystr)
      (st : google_state) (item : google_item) (st' : google_state) :
  google_state_ok st ->
  google_item_step nfkd unicode_isdigit query match_isbn st item = Ok st' ->
  google_state_ok st'.
Proof.
  intros [Hn [Hm Hs]] H. unfold google_item_step in H.
  destruct (item_id item) as [id|]; [|discriminate].
  destruct (List.existsb (eqb id) (fst st)) eqn:Ex;
    [injection H as <-; repeat split; assumption|].
  unfold google_book in H.
  destruct (pick_isbn _ None) as [i|e]; simpl in H; [|discriminate].
  injection H as <-. unfold google_state_ok; simpl.
  split; [constructor; [apply existsb_eqb_false; exact Ex | exact Hn]|].
  split.
  - rewrite map_app, Hm; reflexivity.
  - apply Forall_app; split; [exact Hs|].
    constructor; [split; reflexivity | constructor].
Qed.

Lemma google_response_step_ok
      (nfkd : pystr -> pystr) (unicode_isdigit : N -> bool)
      (query : pystr) (match_isbn : option pystr)
      (st : google_state) (resp : http_outcome) (st' : google_state) :
  google_state_ok st ->
  google_response_step nfkd unicode_isdigit query match_isbn st resp = Ok st' ->
  google_state_ok st'.
Proof.
  intros Hok H. destruct resp as [e|code json]; simpl in H.
  - injection H as <-; exact Hok.
  - destruct (negb _); [injection H as <-; exact Hok|].
    destruct json as [data|]; [|discriminate].
    destruct (doc_items data) as [items|]; [|injection H as <-; exact Hok].
    revert H. apply for_each_invariant; [|exact Hok].
    intros s x s'; apply google_item_step_ok.
Qed.

(** X8: the list returned by [search_google] holds no two candidates with
    the same record id, whatever the responses repeat, and every candidate
    in it has the source "Google" and no [olid]. *)
Theorem search_google_no_duplicate_ids :
  forall (nfkd : pystr -> pystr) (unicode_isdigit : N -> bool)
         (client : pystr -> http_outcome) (query : pystr)
         (match_isbn : option pystr) (g_results : list book),
    search_google nfkd unicode_isdigit client query match_isbn = Ok g_results ->
    NoDup (List.map (fun b : book => source_id b) g_results) /\
    Forall (fun b : book => source b = lit "Google" /\ olid b = None) g_results.
Proof.
  intros nfkd ud client query m g H. unfold search_google in H.
  destruct (for_each _ _ _) as [st|e] eqn:E; simpl in H; [|discriminate].
  injection H as <-.
  assert (Hok : google_state_ok st).
  { revert E. apply for_each_invariant.
    - intros s x s'; apply google_response_step_ok.
    - repeat split; constructor. }
  destruct Hok as [Hn [Hm Hs]].
  split; [|exact Hs].
  rewrite Hm. apply NoDup_rev; exact Hn.
Qed.

Lemma search_google_no_duplicate_ids_witness :
  exists g_results,
    search_google nfkd_fragment no_unicode_digit dune_client (lit "Dune") None
    = Ok g_results /\
    List.length g_results = 3%nat /\
    NoDup (List.map (fun b : book => source_id b) g_results).
Proof.
  eassert (Hg : search_google nfkd_fragment no_unicode_digit dune_client
                              (lit "Dune") None = Ok _)
    by (vm_compute; reflexivity).
  eexists; split; [exact Hg|]. split; [reflexivity|].
  exact (proj1 (@search_google_no_duplicate_ids _ _ _ _ _ _ Hg)).
Defined.

(** ** Failures, continued *)

(** X9: when every request fails or is answered with a status other than
    200, [search_aggregated] returns the empty list and raises nothing. *)
Theorem search_aggregated_without_catalogs :
  forall (nfkd : pystr -> pystr) (unicode_isdigit : N -> bool)
         (client : pystr -> http_outcome) (query : pystr)
         (match_isbn : option pystr),
    (forall url,
        (exists e, client url = Failed e) \/
        (exists code json, client url = Responded code json /\ code <> 200%Z)) ->
    search_google nfkd unicode_isdigit client query match_isbn = Ok [] /\
    search_open_library nfkd unicode_isdigit client query match_isbn = [] /\
    search_aggregated nfkd unicode_isdigit client query match_isbn = Ok [].
Proof.
  intros nfkd ud client query m H.
  assert (G : search_google nfkd ud client query m = Ok []).
  { unfold search_google, google_strategies.
    destruct (is_isbn ud query); simpl;
      repeat (rewrite google_response_step_absorbs by apply H; simpl);
      reflexivity. }
  assert (O : search_open_library nfkd ud client query m = []).
  { apply search_open_library_absorbs.
    destruct (H (ol_url query)) as [He|[code [json [Hr Hc]]]];
      [left; exact He | right; exists code, json; split; [exact Hr | left; exact Hc]]. }
  split; [exact G|]. split; [exact O|].
  unfold search_aggregated; rewrite G, O; reflexivity.
Qed.

Lemma search_aggregated_without_catalogs_witness :
  search_aggregated nfkd_fragment no_unicode_digit no_catalog_client
                    (lit "Dune") None = Ok [].
Proof.
  apply (@search_aggregated_without_catalogs nfkd_fragment no_unicode_digit
           no_catalog_client (lit "Dune") None).
  intros url; unfold no_catalog_client.
  destruct (startswith url (lit "https://www.googleapis.com/")).
  - left; exists TransportError; reflexivity.
  - right; exists 503%Z, None; split; [reflexivity | discriminate].
Defined.

Lemma ol_docs_loop_prefix
      (nfkd : pystr -> pystr) (unicode_isdigit : N -> bool)
      (query : pystr) (match_isbn : option pystr)
      (bad : ol_doc) (post : list ol_doc) (e : exn) :
  ol_book nfkd unicode_isdigit bad query match_isbn = Raise e ->
  forall (pre : list ol_doc) (built results : list book),
    Forall2 (fun d b =>
               ol_book nfkd unicode_isdigit d query match_isbn = Ok b)
            pre built ->
    ol_docs_loop nfkd unicode_isdigit query match_isbn (pre ++ bad :: post)
                 results
    = (results ++ built, Some e).
Proof.
  intros Hbad pre built results F; revert results.
  induction F as [|d b pre built Hd _ IH]; intros results; simpl.
  - rewrite Hbad, app_nil_r; reflexivity.
  - rewrite Hd, IH, <- app_assoc; reflexivity.
Qed.

(** X10: when a document of an Open Library response has an empty [isbn]
    list, [search_open_library] returns the candidates of the documents
    before it, and none of the documents after it. *)
Theorem search_open_library_keeps_prefix :
  forall (nfkd : pystr -> pystr) (unicode_isdigit : N -> bool)
         (client : pystr -> http_outcome) (query : pystr)
         (match_isbn : option pystr) (data : json_doc)
         (pre post : list ol_doc) (bad : ol_doc) (built : list book),
    client (ol_url query) = Responded 200 (Some data) ->
    doc_docs data = Some (pre ++ bad :: post) ->
    doc_isbn bad = Some [] ->
    Forall2 (fun d b =>
               ol_book nfkd unicode_isdigit d query match_isbn = Ok b)
            pre built ->
    search_open_library nfkd unicode_isdigit client query match_isbn = built.
Proof.
  intros nfkd ud client query m data pre post bad built Hc Hd Hb F.
  unfold search_open_library. rewrite Hc, Hd. simpl negb. cbv iota.
  assert (Hbad : ol_book nfkd ud bad query m = Raise IndexError)
    by (unfold ol_book; rewrite Hb; reflexivity).
  rewrite (@ol_docs_loop_prefix nfkd ud query m bad post IndexError Hbad
             pre built [] F).
  reflexivity.
Qed.

Lemma search_open_library_keeps_prefix_witness :
  List.map (fun b : book => source_id b)
    (search_open_library nfkd_fragment no_unicode_digit partial_docs_client
                         (lit "Dune") None)
  = [lit "OL2W"].
Proof.
  eassert (Hb : ol_book nfkd_fragment no_unicode_digit messiah_doc (lit "Dune")
                        None = Ok _)
    by (vm_compute; reflexivity).
  rewrite (@search_open_library_keeps_prefix nfkd_fragment no_unicode_digit
             partial_docs_client (lit "Dune") None
             (mkDoc None (Some [messiah_doc; empty_isbn_doc; messiah_doc]))
             [messiah_doc] [messiah_doc] empty_isbn_doc _
             eq_refl eq_refl eq_refl
             (Forall2_cons _ _ Hb (Forall2_nil _))).
  reflexivity.
Defined.

(** X11: an item without the key "id" at the head of the first answered
    Google response makes [search_google] raise [KeyError], and the call of
    [search_aggregated] with it, whatever Open Library returned. *)
Theorem search_google_raises_on_missing_id :
  forall (nfkd : pystr -> pystr) (unicode_isdigit : N -> bool)
         (client : pystr -> http_outcome) (query : pystr)
         (match_isbn : option pystr) (data : json_doc)
         (item : google_item) (rest : list google_item),
    client (google_url (List.hd [] (google_strategies unicode_isdigit query)))
    = Responded 200 (Some data) ->
    doc_items data = Some (item :: rest) ->
    item_id item = None ->
    search_google nfkd unicode_isdigit client query match_isbn = Raise KeyError /\
    search_aggregated nfkd unicode_isdigit client query match_isbn
    = Raise KeyError.
Proof.
  intros nfkd ud client query m data item rest Hc Hd Hi.
  assert (G : search_google nfkd ud client query m = Raise KeyError).
  { unfold search_google, google_strategies in *.
    destruct (is_isbn ud query); simpl in Hc |- *; rewrite Hc; simpl;
      rewrite Hd; simpl; unfold google_item_step; rewrite Hi; reflexivity. }
  split; [exact G|].
  unfold search_aggregated; rewrite G; reflexivity.
Qed.

Lemma search_google_raises_on_missing_id_witness :
  search_aggregated nfkd_fragment no_unicode_digit no_id_client (lit "Dune")
                    None = Raise KeyError /\
  List.length (search_open_library nfkd_fragment no_unicode_digit no_id_client
                                   (lit "Dune") None) = 2%nat.
Proof.
  split; [|reflexivity].
  exact (proj2 (@search_google_raises_on_missing_id nfkd_fragment
                  no_unicode_digit no_id_client (lit "Dune") None
                  (mkDoc (Some [mkGoogleItem None None]) (Some dune_docs))
                  (mkGoogleItem None None) [] eq_refl eq_refl eq_refl)).
Defined.

(** ** The best candidate *)

Lemma filter_head_split (A : Type) (p : A -> bool) (l : list A) (x : A)
      (r : list A) :
  List.filter p l = x :: r ->
  exists l1 l2, l = l1 ++ x :: l2 /\ Forall (fun a => p a = false) l1.
Proof.
  induction l as [|a l IH]; simpl; [discriminate|].
  destruct (p a) eqn:Pa.
  - intros [= -> <-]. exists [], l; split; [reflexivity | constructor].
  - intros H. destruct (IH H) as [l1 [l2 [-> F]]].
    exists (a :: l1), l2; split; [reflexivity | constructor; assumption].
Qed.

Lemma sort_desc_head (A : Type) (key : A -> Z) (l : list A) (x : A)
      (r : list A) :
  sort_desc key l = x :: r ->
  exists l1 l2,
    l = l1 ++ x :: l2 /\
    Forall (fun a => (key a < key x)%Z) l1 /\
    Forall (fun a => (key a <= key x)%Z) l2.
Proof.
  intros H.
  assert (Hmax : Forall (fun a => (key a <= key x)%Z) l).
  { pose proof (sort_desc_sorted key l) as S. rewrite H in S.
    apply Sorted_StronglySorted in S;
      [|intros a b c; unfold desc_by; lia].
    apply StronglySorted_inv in S; destruct S as [_ S].
    apply Forall_forall; intros a Ha.
    apply (Permutation_in _ (sort_desc_perm key l)) in Ha.
    rewrite H in Ha; destruct Ha as [<-|Ha]; [lia|].
    rewrite Forall_forall in S; apply (S a Ha). }
  pose proof (sort_desc_stable key (key x) l) as St.
  rewrite H in St; simpl in St; rewrite Z.eqb_refl in St.
  symmetry in St. apply filter_head_split in St.
  destruct St as [l1 [l2 [-> F]]].
  exists l1, l2; split; [reflexivity|].
  apply Forall_app in Hmax; destruct Hmax as [H1 H2].
  inversion H2; subst. split; [|assumption].
  apply Forall_forall; intros a Ha.
  rewrite Forall_forall in F, H1.
  specialize (F a Ha); specialize (H1 a Ha).
  apply Z.eqb_neq in F; lia.
Qed.

(** X12: the candidate [run_import] takes as [best_match], the first of the
    list [search_aggregated] returned, has the greatest rank score of all
    merged candidates that reach the threshold, and stands before every
    other candidate of that rank score in the merged order. *)
Theorem best_match_is_first_of_greatest_rank :
  forall (nfkd : pystr -> pystr) (unicode_isdigit : N -> bool)
         (client : pystr -> http_outcome) (query : pystr)
         (match_isbn : option pystr) (out : list book) (best : book),
    search_aggregated nfkd unicode_isdigit client query match_isbn = Ok out ->
    best_match out = Some best ->
    exists g_results before after,
      search_google nfkd unicode_isdigit client query match_isbn
      = Ok g_results /\
      List.filter (fun b : book => Z.leb MATCH_THRESHOLD (match_score b))
        (g_results
         ++ search_open_library nfkd unicode_isdigit client query match_isbn)
      = before ++ best :: after /\
      Forall (fun b : book => (rank_score b < rank_score best)%Z) before /\
      Forall (fun b : book => (rank_score b <= rank_score best)%Z) after.
Proof.
  intros nfkd ud client query m out best H Hb.
  destruct out as [|x r]; [discriminate|]. injection Hb as ->.
  unfold search_aggregated in H.
  destruct (search_google nfkd ud client query m) as [g|e] eqn:Hg;
    simpl in H; [|discriminate].
  injection H as H.
  set (ol := search_open_library nfkd ud client query m) in *.
  set (filtered := List.filter _ (g ++ ol)) in *.
  assert (Hsc : Forall (fun b : book => score b = rank_score b) filtered).
  { apply Forall_forall; intros b Hin.
    apply filter_In in Hin; destruct Hin as [Hin _].
    apply (@scored_rank nfkd ud query m).
    apply in_app_or in Hin; destruct Hin as [Hin|Hin].
    - pose proof (@search_google_scored _ _ _ _ _ _ Hg) as F.
      rewrite Forall_forall in F; apply F; exact Hin.
    - pose proof (search_open_library_scored nfkd ud query m client) as F.
      rewrite Forall_forall in F; apply F; exact Hin. }
  destruct (sort_desc_head score filtered H) as [l1 [l2 [E [F1 F2]]]].
  exists g, l1, l2. split; [reflexivity|]. split; [exact E|].
  rewrite E in Hsc. apply Forall_app in Hsc; destruct Hsc as [S1 S2].
  inversion S2 as [|? ? Sb S2']; subst.
  split; apply Forall_forall; intros b Hin.
  - rewrite Forall_forall in F1, S1.
    rewrite <- (S1 b Hin), <- Sb; apply F1; exact Hin.
  - rewrite Forall_forall in F2, S2'.
    rewrite <- (S2' b Hin), <- Sb; apply F2; exact Hin.
Qed.

Lemma best_match_is_first_of_greatest_rank_witness :
  exists best : book,
    source_id best = lit "g1" /\
    exists g_results before after,
      search_google nfkd_fragment no_unicode_digit dune_client (lit "Dune")
                    None = Ok g_results /\
      List.filter (fun b : book => Z.leb MATCH_THRESHOLD (match_score b))
        (g_results
         ++ search_open_library nfkd_fragment no_unicode_digit dune_client
              (lit "Dune") None)
      = before ++ best :: after /\
      Forall (fun b : book => (rank_score b < rank_score best)%Z) before /\
      Forall (fun b : book => (rank_score b <= rank_score best)%Z) after.
Proof.
  eassert (Hout : search_aggregated nfkd_fragment no_unicode_digit dune_client
                                    (lit "Dune") None = Ok (_ :: _))
    by (vm_compute; reflexivity).
  eexists; split; [|exact (@best_match_is_first_of_greatest_rank _ _ _ _ _ _ _
                             Hout eq_refl)].
  reflexivity.
Defined.

(** ** The cover of a Google candidate *)

Lemma replace_past_prefix (o : N) (old' new p s : pystr) :
  Forall (fun c => c <> o) p ->
  replace (o :: old') new (p ++ s) = p ++ replace (o :: old') new s.
Proof.
  unfold replace.
  induction 1 as [|c p Hc _ IH]; [reflexivity|].
  cbn [app].
  change (replace_from (o :: old') new 0 (c :: p ++ s))
    with (if N.eqb o c && startswith (p ++ s) old'
          then new ++ replace_from (o :: old') new
                        (Nat.pred (List.length (o :: old'))) (p ++ s)
          else c :: replace_from (o :: old') new 0 (p ++ s)).
  destruct (N.eqb_spec o c) as [E|_]; [congruence|].
  cbn [andb]. rewrite IH. reflexivity.
Qed.

Lemma cover_of_http (r : pystr) :
  replace (lit "zoom=1") (lit "zoom=0")
    (replace (lit "&edge=curl") []
       (replace (lit "http://") (lit "https://") (lit "http://" ++ r)))
  = lit "https://"
    ++ replace (lit "zoom=1") (lit "zoom=0")
         (replace (lit "&edge=curl") []
            (replace (lit "http://") (lit "https://") r)).
Proof.
  assert (E : replace (lit "http://") (lit "https://") (lit "http://" ++ r)
              = lit "https://" ++ replace (lit "http://") (lit "https://") r)
    by (unfold replace; cbn; rewrite startswith_nil; reflexivity).
  rewrite E.
  change (lit "&edge=curl") with (38%N :: lit "edge=curl").
  rewrite replace_past_prefix by (repeat constructor; discriminate).
  change (lit "zoom=1") with (122%N :: lit "oom=1").
  rewrite replace_past_prefix by (repeat constructor; discriminate).
  reflexivity.
Qed.

(** X13: the cover of a Google candidate is never empty, and when the image
    link it is taken from begins with "http://" the cover begins with
    "https://". *)
Theorem google_cover_secure :
  (forall vol : volume_info, truthy (google_cover vol) = true) /\
  (forall (vol : volume_info) (links : image_links) (r : pystr),
      vol_imageLinks vol = Some links ->
      thumbnail links = Some (lit "http://" ++ r) \/
      ((thumbnail links = None \/ thumbnail links = Some []) /\
       smallThumbnail links = Some (lit "http://" ++ r)) ->
      startswith (google_cover vol) (lit "https://") = true).
Proof.
  split.
  - intros vol. unfold google_cover.
    destruct (replace _ _ _); reflexivity.
  - intros vol links r Hl H. unfold google_cover. rewrite Hl.
    cbn [get].
    assert (E : match thumbnail links with
                | Some ((_ :: _) as t) => t
                | _ => get (smallThumbnail links) []
                end = lit "http://" ++ r).
    { destruct H as [-> | [[-> | ->] ->]]; reflexivity. }
    rewrite E, cover_of_http.
    generalize (replace (lit "zoom=1") (lit "zoom=0")
                  (replace (lit "&edge=curl") []
                     (replace (lit "http://") (lit "https://") r))).
    intros y. cbn. apply startswith_nil.
Qed.

Lemma google_cover_secure_witness :
  google_cover http_cover_volume = lit "https://books.example/c?id=1" /\
  startswith (google_cover http_cover_volume) (lit "https://") = true.
Proof.
  split; [reflexivity|].
  apply (proj2 google_cover_secure http_cover_volume
           (mkImageLinks (Some (lit "http://books.example/c?id=1&edge=curl"))
                         None)
           (lit "books.example/c?id=1&edge=curl") eq_refl).
  left; reflexivity.
Defined.

(** ** [format_runtime] *)

(** X14: [format_runtime] gives the empty string for [None] and for 0; for
    any other number of minutes, negative ones included, it prints hours
    [h] and minutes [m] with [60 * h + m] the input and [m] between 0 and
    59. *)
Theorem format_runtime_parts :
  format_runtime None = [] /\
  format_runtime (Some 0%Z) = [] /\
  forall n : Z,
    n <> 0%Z ->
    exists h m : Z,
      format_runtime (Some n) = of_Z h ++ lit "h " ++ of_Z m ++ lit "m" /\
      n = (60 * h + m)%Z /\ (0 <= m < 60)%Z.
Proof.
  split; [reflexivity|]. split; [reflexivity|].
  intros n Hn. exists (n / 60)%Z, (n mod 60)%Z.
  unfold format_runtime.
  destruct (Z.eqb_spec n 0) as [E|_]; [contradiction|].
  split; [reflexivity|].
  split; [apply Z.div_mod; lia | apply Z.mod_pos_bound; lia].
Qed.

Lemma format_runtime_parts_witness :
  format_runtime (Some 630%Z) = lit "10h 30m" /\
  format_runtime (Some (-30)%Z) = lit "-1h 30m" /\
  exists h m : Z,
    format_runtime (Some (-30)%Z) = of_Z h ++ lit "h " ++ of_Z m ++ lit "m" /\
    (-30)%Z = (60 * h + m)%Z /\ (0 <= m < 60)%Z.
Proof.
  split; [reflexivity|]. split; [reflexivity|].
  apply (proj2 (proj2 format_runtime_parts) (-30)%Z). discriminate.
Defined.

(** ** [update_inventory] *)

(** X15: the formats [update_inventory] stores are pairwise different, and
    it stores [is_owned] as true exactly when one of "Physical", "Kindle" and
    "Audible" is ticked; the Libby formats never make a book owned. *)
Theorem inventory_owned_iff_owned_format :
  forall physical kindle audible libby_audio libby_physical libby_ebook
         : option pystr,
    let formats :=
      inventory_formats physical kindle audible libby_audio libby_physical
                        libby_ebook in
    NoDup formats /\
    inventory_is_owned formats
    = truthy_opt physical || truthy_opt kindle || truthy_opt audible.
Proof.
  intros physical kindle audible la lp le formats. subst formats.
  unfold inventory_formats.
  destruct (truthy_opt physical), (truthy_opt kindle), (truthy_opt audible),
    (truthy_opt la), (truthy_opt lp), (truthy_opt le);
    (split; [|reflexivity]);
    cbn [app];
    repeat (constructor; [cbn [In]; intuition discriminate|]);
    constructor.
Qed.

(** ** [get_cover_options] *)

Lemma existsb_eqb_true (x : pystr) (l : list pystr) :
  List.existsb (eqb x) l = true -> In x l.
Proof.
  intros H. apply existsb_exists in H. destruct H as [y [Hy E]].
  apply eqb_eq in E; subst; exact Hy.
Qed.

Lemma fold_cover_step (rs : list book) :
  forall st : list pystr * list pystr,
    NoDup (fst st) ->
    (forall u, In u (snd st) <-> In u (fst st)) ->
    let st' := List.fold_left cover_step rs st in
    NoDup (fst st') /\
    (forall u, In u (snd st') <-> In u (fst st')) /\
    (forall u, In u (fst st') <->
               In u (fst st) \/
               exists r : book, In r rs /\ cover r = u /\ offered u).
Proof.
  induction rs as [|r rs IH]; intros st Hn Hs; cbn [List.fold_left].
  - split; [exact Hn|]. split; [exact Hs|].
    intros u; split; [tauto | intros [H|[x [[] _]]]; exact H].
  - assert (Hstep : NoDup (fst (cover_step st r)) /\
                    (forall u, In u (snd (cover_step st r))
                               <-> In u (fst (cover_step st r))) /\
                    (forall u, In u (fst (cover_step st r)) <->
                               In u (fst st) \/ (cover r = u /\ offered u))).
    { unfold cover_step, offered.
      destruct (truthy (cover r)) eqn:Et;
        destruct (contains (lit "placeholder") (cover r)) eqn:Ep;
        destruct (List.existsb (eqb (cover r)) (snd st)) eqn:Ex;
        cbn [andb negb fst snd];
        try (split; [exact Hn|]; split; [exact Hs|];
             intros u; split; [tauto|];
             intros [H|[<- [H1 H2]]]; [exact H | congruence]).
      - split; [exact Hn|]. split; [exact Hs|].
        intros u; split; [tauto|].
        intros [H|[<- _]]; [exact H|].
        apply Hs, existsb_eqb_true; exact Ex.
      - assert (Hnot : ~ In (cover r) (fst st))
          by (intros Hin; apply Hs in Hin;
              apply (existsb_eqb_false _ _ Ex); exact Hin).
        split.
        + apply NoDup_app_remove_l with (l := []).
          apply (Permutation_NoDup (l := cover r :: fst st));
            [|constructor; assumption].
          apply Permutation_cons_append.
        + split; intros u; rewrite in_app_iff; cbn [In].
          * rewrite (Hs u); tauto.
          * split; [intros [H|[<-|[]]]; [tauto | right; tauto]|].
            intros [H|[<- _]]; tauto. }
    destruct Hstep as [Hn' [Hs' Hu']].
    destruct (IH (cover_step st r) Hn' Hs') as [A [B C]].
    split; [exact A|]. split; [exact B|].
    intros u. rewrite (C u), (Hu' u). cbn [In]. split.
    + intros [[H|[E O]]|[x [Hx [E O]]]].
      * left; exact H.
      * right; exists r; tauto.
      * right; exists x; tauto.
    + intros [H|[x [[<-|Hx] [E O]]]].
      * left; left; exact H.
      * left; right; tauto.
      * right; exists x; tauto.
Qed.

(** X16: the covers [get_cover_options] offers are pairwise different, and
    they are exactly the covers of the search results that are not empty and
    do not contain "placeholder". *)
Theorem unique_covers_exact :
  forall results : list book,
    NoDup (unique_covers results) /\
    forall u : pystr,
      In u (unique_covers results) <->
      exists r : book, In r results /\ cover r = u /\ offered u.
Proof.
  intros results.
  destruct (@fold_cover_step results ([], []) (NoDup_nil _)
              (fun u => conj (fun H => H) (fun H => H))) as [A [_ C]].
  split; [exact A|].
  intros u. unfold unique_covers. rewrite (C u). cbn [fst In]. tauto.
Qed.

(** ** [prep_relation] *)

Ltac by_key t k :=
  let E := fresh "E" in
  destruct (eqb t k) eqn:E;
  [apply eqb_eq in E; subst t; vm_compute;
   split; intros; (reflexivity || discriminate)|].

(** X17: a relation carries the same label on the page of its source book
    and on the page of its target book exactly when its type is not one of
    the eight directional types; a type that [RELATION_MAP] does not list is
    shown as it is on both pages. *)
Theorem relation_label_same_both_ways :
  forall r : relation_row,
    (label (prep_relation r true) = label (prep_relation r false) <->
     List.existsb (eqb (relation_type r)) directional_types = false) /\
    (List.existsb (fun kv => eqb (relation_type r) (fst kv)) RELATION_MAP
     = false ->
     label (prep_relation r true) = relation_type r /\
     label (prep_relation r false) = relation_type r).
Proof.
  intros [i t ti inv cu cp].
  unfold prep_relation.
  cbn [rel_cover_path relation_type relation_id related_title
       related_inventory_id].
  assert (Ht : relation_type
                 (if truthy_opt cp then mkRelationRow i t ti inv cp cp
                  else mkRelationRow i t ti inv cu cp) = t)
    by (destruct (truthy_opt cp); reflexivity).
  rewrite Ht; clear Ht. cbn [label].
  unfold RELATION_MAP, directional_types.
  cbn [dict_get List.existsb fst snd].
  split.
  - by_key t (lit "reads_like"). by_key t (lit "contrast"). by_key t (lit "complementary").
    by_key t (lit "same_universe"). by_key t (lit "shared_trope"). by_key t (lit "prequel_to").
    by_key t (lit "sequel_to"). by_key t (lit "prerequisite_for").
    by_key t (lit "more_detailed_than"). by_key t (lit "simpler_than").
    by_key t (lit "inspired_by"). by_key t (lit "better_than"). by_key t (lit "worse_than").
    split; reflexivity.
  - intros H.
    repeat match type of H with
           | (eqb t ?k || _) = false =>
               destruct (eqb t k); [discriminate H | cbn [orb] in H]
           end.
    split; reflexivity.
Qed.

Lemma relation_label_same_both_ways_witness :
  label (prep_relation
           (mkRelationRow 1 (lit "mentions") (lit "Dune") None None None) true)
  = lit "mentions".
Proof.
  exact (proj1 (proj2 (relation_label_same_both_ways
                         (mkRelationRow 1 (lit "mentions") (lit "Dune")
                                        None None None)) eq_refl)).
Defined.

(** ** Ownership in [run_import] *)

(** X18: whatever the "Service" and "Own?" cells hold, [run_import] marks a
    row as owned exactly when it does not mark it as borrowed, and the
    format it records is one of "Audible", "Kindle", "Physical" and
    "Libby Audiobook". *)
Theorem ownership_owned_xor_borrowed :
  forall service_raw own_raw : pystr,
    snd (fst (ownership service_raw own_raw))
    = negb (snd (ownership service_raw own_raw)) /\
    In (fst (fst (ownership service_raw own_raw)))
       [lit "Audible"; lit "Kindle"; lit "Physical"; lit "Libby Audiobook"].
Proof.
  intros s o. unfold ownership, SERVICE_DEFAULTS.
  cbn [dict_get].
  assert (G : forall d : pystr * bool,
             In (fst d) [lit "Audible"; lit "Kindle"; lit "Physical";
                         lit "Libby Audiobook"] ->
             snd (fst (if contains (lit "yes") o then (fst d, true, false)
                       else if contains (lit "no") o then (fst d, false, true)
                            else (fst d, negb (snd d), snd d)))
             = negb (snd (if contains (lit "yes") o then (fst d, true, false)
                          else if contains (lit "no") o
                               then (fst d, false, true)
                               else (fst d, negb (snd d), snd d))) /\
             In (fst (fst (if contains (lit "yes") o then (fst d, true, false)
                           else if contains (lit "no") o
                                then (fst d, false, true)
                                else (fst d, negb (snd d), snd d))))
                [lit "Audible"; lit "Kindle"; lit "Physical";
                 lit "Libby Audiobook"]).
  { intros d Hd.
    destruct (contains (lit "yes") o); [split; [reflexivity | exact Hd]|].
    destruct (contains (lit "no") o); split; try reflexivity; exact Hd. }
  repeat match goal with
         | |- context [if eqb s ?k then ?v else _] =>
             destruct (eqb s k); [apply (G v); cbn [fst In]; tauto|]
         end.
  apply (G (lit "Physical", false)); cbn [fst In]; tauto.
Qed.
